(** * node-favicon: the favicon resolution and caching engine of [server.js]

    A shallow embedding of the request handler of [server.js] (and of the
    conversion callback of its synchronous predecessor), with the
    properties stated about it.

    JavaScript strings are modelled as [string] (ASCII), [Buffer]s as
    [list byte], the counters closed over by one request as [Z].  The
    asynchronous callbacks of one request become events that are applied,
    one at a time and in any order, to the state the request closes over. *)

From Stdlib Require Import ZArith List String Ascii Bool Lia.
From Stdlib.Strings Require Import Byte.
From Stdlib Require Import DecimalString.
Import ListNotations.

Local Open Scope string_scope.
Local Open Scope Z_scope.

(** ** Data *)

(** A [Buffer]: the raw bytes of a downloaded icon. *)
Definition buffer := list byte.

(** The object passed around as [faviconObj], [rootFavicon], [newFavicon]:
    [{ url, bgcolor, data }], where [bgcolor] and [data] may be absent. *)
Record faviconObj := mkFavicon
  { url : string;
    bgcolor : option string;
    data : option buffer }.

(** [faviconObj.url = u] *)
Definition set_url (u : string) (o : faviconObj) : faviconObj :=
  {| url := u; bgcolor := bgcolor o; data := data o |}.

(** [faviconObj.data = d] *)
Definition set_data (d : buffer) (o : faviconObj) : faviconObj :=
  {| url := url o; bgcolor := bgcolor o; data := Some d |}.

(** JavaScript truthiness of a possibly undefined string. *)
Definition truthy (s : option string) : bool :=
  match s with
  | Some "" => false
  | Some _ => true
  | None => false
  end.

(** ** URL resolution *)

Module Resolver.

(** [fixupUrl (url, root, protocol)] *)
Definition fixupUrl (url root protocol : string) : string :=
  match url with
  | String "/" rest =>
      match rest with
      | String "/" _ => protocol ++ url
      | _ => root ++ url
      end
  | _ => url
  end.

(** What the regular expressions of [parseFaviconURL] deliver for one
    [<link ...>] element: whether [rel_re] matches its attributes and the
    first group of [href_re], when it matches. *)
Record link_match := mkLink
  { rel_test : bool;
    href_exec : option string }.

(** The same for one [<meta...>] element: the first groups of [name_re]
    and [content_re]. *)
Record meta_match := mkMeta
  { name_exec : option string;
    content_exec : option string }.

(** An HTML text together with the matches that [link_re] and [meta_re]
    enumerate in it, in document order. *)
Record html_doc := mkHtml
  { html_text : string;
    links : list link_match;
    metas : list meta_match }.

(** The first [while] loop: one candidate per link whose [rel] contains
    "icon" and which has an [href]. *)
Fixpoint link_icons (ls : list link_match) (root protocol : string) : list faviconObj :=
  match ls with
  | [] => []
  | l :: rest =>
      match rel_test l, href_exec l with
      | true, Some faviconURL =>
          mkFavicon (fixupUrl faviconURL root protocol) None None
            :: link_icons rest root protocol
      | _, _ => link_icons rest root protocol
      end
  end.

(** The second [while] loop: the last [TileImage] and the last [TileColor]
    are kept in [tileURL] and [tileColor]. *)
Fixpoint tile_scan (ms : list meta_match) (tileURL tileColor : option string)
  : option string * option string :=
  match ms with
  | [] => (tileURL, tileColor)
  | m :: rest =>
      match content_exec m, name_exec m with
      | Some content, Some name =>
          if String.eqb name "TileImage" then tile_scan rest (Some content) tileColor
          else if String.eqb name "TileColor" then tile_scan rest tileURL (Some content)
          else tile_scan rest tileURL tileColor
      | _, _ => tile_scan rest tileURL tileColor
      end
  end.

(** The tile candidate pushed after the loops, if any. *)
Definition tile_icon (tile : option string * option string) (root protocol : string)
  : list faviconObj :=
  let (tileURL, tileColor) := tile in
  match tileURL with
  | Some u =>
      if truthy tileURL then
        if truthy tileColor
        then [mkFavicon (fixupUrl u root protocol) tileColor None]
        else [mkFavicon (fixupUrl u root protocol) None None]
      else []
  | None => []
  end.

(** [parseFaviconURL (html, root, protocol)] *)
Definition parseFaviconURL (html : html_doc) (root protocol : string) : list faviconObj :=
  link_icons (links html) root protocol
    ++ tile_icon (tile_scan (metas html) None None) root protocol.

(** The values that the scan discovers: the [href] of a qualifying link,
    and the tile image that survives the meta loop. *)
Definition discovered (html : html_doc) (v : string) : Prop :=
  (exists l, In l (links html) /\ rel_test l = true /\ href_exec l = Some v)
  \/ fst (tile_scan (metas html) None None) = Some v.

End Resolver.

(** ** Fetching one candidate *)

Module Fetch.

(** The client module [getFavicon] selects in [protocol]. *)
Inductive client := http | https.

(** What [protocol.get] delivers for one request: a response (status code,
    the [location] header when present, the body chunks in order), or the
    ['error'] event.  The socket timeout aborts the request, which is
    delivered as ['error'] too. *)
Inductive reply :=
| Response (statusCode : Z) (location : option string) (chunks : list buffer)
| Error.

Definition network := client -> string -> reply.

(** The end of one [getFavicon] call: the callback is called with the
    object, an exception is thrown ([url] is undefined), or the redirects
    allowed to the model are used up and the callback is still to come. *)
Inductive outcome :=
| Called (o : faviconObj)
| Thrown
| Pending.

(** [c.toLowerCase ()] on one ASCII character. *)
Definition lower (c : ascii) : ascii :=
  let n := N_of_ascii c in
  if ((65 <=? n) && (n <=? 90))%N then ascii_of_N (n + 32) else c.

(** [url.substring (0, n).toLowerCase () + url.substring (n)] *)
Fixpoint lower_first (n : nat) (url : string) : string :=
  match n, url with
  | S n', String c rest => String (lower c) (lower_first n' rest)
  | _, _ => url
  end.

(** [re.test (s)] for a regular expression that is a literal text. *)
Fixpoint test (re s : string) : bool :=
  prefix re s ||
  match s with
  | EmptyString => false
  | String _ rest => test re rest
  end.

(** [getFavicon (faviconObj, callback)]; [hops] bounds the redirects the
    model follows, the code has no such bound. *)
Fixpoint getFavicon (hops : nat) (net : network) (faviconObj : faviconObj) : outcome :=
  let url := lower_first 5 (url faviconObj) in
  let protocol := if test "https://" url then https else http in
  match net protocol url with
  | Response statusCode location chunks =>
      if statusCode =? 200 then
        Called (set_data (List.concat chunks) faviconObj)
      else if (statusCode =? 301) || (statusCode =? 302) then
        match location with
        | Some l =>
            match hops with
            | O => Pending
            | S h => getFavicon h net (set_url l faviconObj)
            end
        | None => Thrown
        end
      else Called faviconObj
  | Error => Called faviconObj
  end.

(** The candidate of a fetch that called back has a payload. *)
Definition payload_of (r : outcome) : option buffer :=
  match r with
  | Called o => data o
  | _ => None
  end.

End Fetch.

(** ** What a request does to the outside *)

Inductive action :=
| ResponseEnd                                      (* response.end () *)
| SendEmpty                                        (* sendEmpty (response) *)
| LoadIcon (file : string)                         (* loadIcon (file, response) *)
| Mkdir (dir : string)                             (* fs.mkdir (cacheDir, ...) *)
| GetFavicon (o : faviconObj)                      (* getFavicon (o, ...) *)
| GetHTML (url : string)                           (* getHTML (url, ...) *)
| SaveFavicon (j : nat) (fi : faviconObj)          (* saveFavicon (filename, fi, convertFn) *)
| ServeFromCache (foldername : string).            (* serveFromCache (foldername, host) *)

(** ** The join of one request *)

Module Coordinator.

(** The variables one request closes over. *)
Record job := mkJob
  { returned : Z;
    expected : Z;
    htmlLoaded : bool;
    converted : Z;
    stored : Z;
    favicons : list faviconObj }.

Definition initial : job := mkJob 0 3 false 0 0 [].

(** [a.compare (b)] of buffertools: the order of the first byte that
    differs, the shorter buffer first when one is a prefix of the other. *)
Fixpoint compare (a b : buffer) : Z :=
  match a, b with
  | [], [] => 0
  | [], _ :: _ => -1
  | _ :: _, [] => 1
  | x :: a', y :: b' =>
      if (to_N x <? to_N y)%N then -1
      else if (to_N y <? to_N x)%N then 1
      else compare a' b'
  end.

(** [newFavicon.data.compare (favicon.data) == 0]; both objects carry
    [data] wherever [done] is called. *)
Definition same_data (newFavicon favicon : faviconObj) : bool :=
  match data newFavicon, data favicon with
  | Some a, Some b => compare a b =? 0
  | _, _ => false
  end.

(** The [for] loop of [done] that sets [skip]. *)
Definition skip (newFavicon : faviconObj) (favicons : list faviconObj) : bool :=
  existsb (same_data newFavicon) favicons.

(** The first half of [done]: count the arrival and store a new payload. *)
Definition arrive (newFavicon : option faviconObj) (s : job) : job :=
  match newFavicon with
  | Some f =>
      if skip f (favicons s) then
        mkJob (returned s + 1) (expected s) (htmlLoaded s) (converted s)
              (stored s) (favicons s)
      else
        mkJob (returned s + 1) (expected s) (htmlLoaded s) (converted s)
              (stored s + 1) (favicons s ++ [f])
  | None =>
      mkJob (returned s + 1) (expected s) (htmlLoaded s) (converted s)
            (stored s) (favicons s)
  end.

(** [for (var j in favicons) ... saveFavicon (filename, fi, convertFn)] *)
Fixpoint save_all (j : nat) (favicons : list faviconObj) : list action :=
  match favicons with
  | [] => []
  | fi :: rest => SaveFavicon j fi :: save_all (S j) rest
  end.

(** The block of [done] under [returned >= expected && htmlLoaded]. *)
Definition completion (s : job) : list action :=
  (if stored s =? 0 then [ResponseEnd] else []) ++ save_all 0 (favicons s).

(** The completion predicate of [done]. *)
Definition complete (s : job) : bool :=
  (expected s <=? returned s) && htmlLoaded s.

(** [done (newFavicon)]: the new state and, when the completion block
    ran, what it did. *)
Definition done (newFavicon : option faviconObj) (s : job) : job * option (list action) :=
  let s' := arrive newFavicon s in
  if complete s' then (s', Some (completion s')) else (s', None).

(** The callback that [getRootFavicon] and the HTML branch pass to
    [getFavicon]. *)
Definition fetched (faviconObj : faviconObj) (s : job) : job * option (list action) :=
  match data faviconObj with
  | Some _ => done (Some faviconObj) s
  | None => done None s
  end.

(** The callbacks of one request, as they arrive. *)
Inductive event :=
| RootFavicon (faviconObj : faviconObj)           (* callback of getRootFavicon *)
| Html (html : option Resolver.html_doc)          (* callback of getHTML *)
| HtmlFavicon (faviconObj : faviconObj).          (* callback of a fetch found in HTML *)

(** What one callback did: fetches issued, and the completion block when
    it ran. *)
Record effects := mkEffects
  { issued : list action;
    completed : option (list action) }.

(** [for (i in faviconURLs) getFavicon (faviconObj, ...)] *)
Definition dispatch (faviconURLs : list faviconObj) : list action :=
  map GetFavicon faviconURLs.

(** [htmlLoaded = true] *)
Definition set_htmlLoaded (s : job) : job :=
  mkJob (returned s) (expected s) true (converted s) (stored s) (favicons s).

(** [expected += n] *)
Definition add_expected (n : Z) (s : job) : job :=
  mkJob (returned s) (expected s + n) (htmlLoaded s) (converted s) (stored s)
        (favicons s).

(** The callback passed to [getHTML] in [retrieveAllFavicons]. *)
Definition html_loaded (root protocol : string) (html : option Resolver.html_doc)
    (s : job) : job * effects :=
  let without :=
    let (s', c) := done None (set_htmlLoaded s) in (s', mkEffects [] c) in
  match html with
  | Some h =>
      if truthy (Some (Resolver.html_text h)) then
        let faviconURLs := Resolver.parseFaviconURL h root protocol in
        if (0 <? Z.of_nat (List.length faviconURLs)) then
          (set_htmlLoaded (add_expected (Z.of_nat (List.length faviconURLs)) s),
           mkEffects (dispatch faviconURLs) None)
        else without
      else without
  | None => without
  end.

(** One callback applied to the state of the request. *)
Definition step (root protocol : string) (s : job) (e : event) : job * effects :=
  match e with
  | RootFavicon o => let (s', c) := fetched o s in (s', mkEffects [] c)
  | HtmlFavicon o => let (s', c) := fetched o s in (s', mkEffects [] c)
  | Html html => html_loaded root protocol html s
  end.

(** The callbacks applied in their order of arrival, with what each did. *)
Fixpoint run (root protocol : string) (s : job) (es : list event) : job * list effects :=
  match es with
  | [] => (s, [])
  | e :: rest =>
      let (s', x) := step root protocol s e in
      let (s'', xs) := run root protocol s' rest in
      (s'', x :: xs)
  end.

(** How many times the completion block ran. *)
Fixpoint completions (xs : list effects) : nat :=
  match xs with
  | [] => O
  | x :: rest =>
      match completed x with
      | Some _ => S (completions rest)
      | None => completions rest
      end
  end.

(** The callback of [imagemagick.convert] in [convertFn]; [err] tells
    whether the conversion failed. *)
Definition converted_one (foldername : string) (err : bool) (s : job) : job * list action :=
  let s' := mkJob (returned s) (expected s) (htmlLoaded s) (converted s + 1)
                  (stored s) (favicons s) in
  (s', if converted s' =? stored s' then [ServeFromCache foldername] else []).

(** The same callback in the synchronous predecessor of the server, which
    returns on [err] before it compares the counters. *)
Definition converted_one_sync (foldername : string) (err : bool) (s : job) : job * list action :=
  let s' := mkJob (returned s) (expected s) (htmlLoaded s) (converted s + 1)
                  (stored s) (favicons s) in
  if err then (s', [])
  else (s', if converted s' =? stored s' then [ServeFromCache foldername] else []).

(** The conversions reporting back one after the other. *)
Fixpoint join (cb : bool -> job -> job * list action) (errs : list bool) (s : job)
  : job * list action :=
  match errs with
  | [] => (s, [])
  | err :: rest =>
      let (s', a) := cb err s in
      let (s'', b) := join cb rest s' in
      (s'', (a ++ b)%list)
  end.

End Coordinator.

(** ** The cache of one host *)

Module Cache.

(** The requested size: the number [16], or the text of the [size] query
    parameter. *)
Inductive requested :=
| Number (n : Z)
| Text (s : string).

(** What [fs.stat] and [fs.readdir] deliver for a cache directory: the
    modification time and the listing, each absent on an error. *)
Record directory := mkDirectory
  { stat : option Z;
    readdir : option (list string) }.

(** The result of the loop of [getBestFromCache]: it returned on a perfect
    fit, or ran to its end with [bestFit] and [bestFitDifference]. *)
Inductive found :=
| Perfect (file : string)
| Closest (bestFit : option string) (bestFitDifference : Z).

(** [file.split (".")] *)
Fixpoint split (file : string) : list string :=
  match file with
  | EmptyString => [EmptyString]
  | String c rest =>
      if Ascii.eqb c "." then EmptyString :: split rest
      else
        match split rest with
        | part :: parts => String c part :: parts
        | [] => [String c EmptyString]
        end
  end.

(** [file.split (".") [1]], undefined when the name has no dot. *)
Definition width_of (file : string) : option string :=
  nth_error (split file) 1.

Section Lookup.

(** The conversion of a text to a number that [==] and [-] apply: [None]
    is NaN.  Numbers are integers here; a text that denotes a fraction or
    an infinity is outside the model. *)
Variable ToNumber : string -> option Z.

(** [size == width] *)
Definition loose_eq (size : requested) (width : option string) : bool :=
  match width with
  | None => false
  | Some w =>
      match size with
      | Number n =>
          match ToNumber w with
          | Some m => m =? n
          | None => false
          end
      | Text s => String.eqb s w
      end
  end.

(** [width - size], NaN when an operand is not a number. *)
Definition difference_of (width : option string) (size : requested) : option Z :=
  match width with
  | None => None
  | Some w =>
      match ToNumber w, match size with Number n => Some n | Text s => ToNumber s end with
      | Some a, Some b => Some (a - b)
      | _, _ => None
      end
  end.

(** [difference > bestFitDifference], false on NaN. *)
Definition exceeds (difference : option Z) (bestFitDifference : Z) : bool :=
  match difference with
  | Some d => bestFitDifference <? d
  | None => false
  end.

(** The [for] loop of [getBestFromCache], entered with the current
    [bestFit] and [bestFitDifference]. *)
Fixpoint best (size : requested) (files : list string)
    (bestFit : option string) (bestFitDifference : Z) : found :=
  match files with
  | [] => Closest bestFit bestFitDifference
  | file :: rest =>
      let width := width_of file in
      if loose_eq size width then Perfect file
      else
        let difference := difference_of width size in
        if exceeds difference bestFitDifference && (0 <? bestFitDifference) then
          best size rest bestFit bestFitDifference
        else if exceeds difference bestFitDifference then
          match difference with
          | Some d => best size rest (Some file) d
          | None => best size rest bestFit bestFitDifference
          end
        else best size rest bestFit bestFitDifference
  end.

(** The callback of [fs.readdir] in [getBestFromCache]; [cb] stands for
    what the continuation does when called. *)
Definition getBestFromCache (foldername : string) (size : requested)
    (cb : list action) (files : option (list string)) : list action :=
  match files with
  | None => cb
  | Some files =>
      match best size files None (-100000) with
      | Perfect file => [LoadIcon (foldername ++ file)]
      | Closest bestFit _ =>
          ((if negb (truthy bestFit) then [SendEmpty] else [])
             ++ [LoadIcon (foldername ++ match bestFit with
                                         | Some file => file
                                         | None => "null"
                                         end)])%list
      end
  end.

(** [serveFromCache (foldername, host, expires, cb)] on the directory [d]. *)
Definition serveFromCache (foldername : string) (size : requested)
    (expires : option Z) (cb : list action) (d : directory) : list action :=
  match expires with
  | Some e =>
      if e =? 0 then getBestFromCache foldername size cb (readdir d)
      else
        match stat d with
        | None => cb
        | Some mtime =>
            if mtime <? e then cb
            else getBestFromCache foldername size cb (readdir d)
        end
  | None => getBestFromCache foldername size cb (readdir d)
  end.

End Lookup.

(** A text of decimal digits read as a number, [0] for the empty text as
    in JavaScript; used where a listing is evaluated. *)
Fixpoint digits (s : string) (acc : Z) : option Z :=
  match s with
  | EmptyString => Some acc
  | String c rest =>
      let n := N_of_ascii c in
      if ((48 <=? n) && (n <=? 57))%N
      then digits rest (10 * acc + Z.of_N (n - 48))
      else None
  end.

Definition decimal (s : string) : option Z := digits s 0.

(** The rule as the specification words it: an entry replaces the best
    whenever its difference is strictly greater, also once the best is
    oversized ("a larger d is still preferred"). *)
Fixpoint spec_best (size : Z) (widths : list Z) (best : option Z) : option Z :=
  match widths with
  | [] => best
  | w :: rest =>
      if w =? size then Some w
      else
        match best with
        | None => spec_best size rest (Some w)
        | Some b =>
            if (b - size) <? (w - size) then spec_best size rest (Some w)
            else spec_best size rest best
        end
  end.

End Cache.

(** ** The request handler *)

Module Handler.

Definition CACHE_TTL : Z := 3 * 24 * 60 * 60 * 1000.

(** What the handler reads of a request: [urlObj.pathname.substr (1)] and
    [urlObj.query.size]. *)
Record request := mkRequest
  { pathname1 : string;
    query_size : option string }.

(** The fields of [url.parse (root)] that the handler reads. *)
Record urlObj := mkUrl
  { protocol : string;
    host : string }.

(** [/http[s]*:\/\//.test (root)] *)
Fixpoint skip_s (s : string) : string :=
  match s with
  | String "s" rest => skip_s rest
  | _ => s
  end.

Definition scheme_at (s : string) : bool :=
  match s with
  | String "h" (String "t" (String "t" (String "p" rest))) => prefix "://" (skip_s rest)
  | _ => false
  end.

Fixpoint has_scheme (root : string) : bool :=
  scheme_at root ||
  match root with
  | EmptyString => false
  | String _ rest => has_scheme rest
  end.

(** [getRootFavicon (root, filename)] up to its callback. *)
Definition getRootFavicon (root filename : string) : action :=
  GetFavicon (mkFavicon (root ++ "/" ++ filename) None None).

(** [retrieveAllFavicons ()] up to the callbacks. *)
Definition retrieveAllFavicons (root : string) : list action :=
  [ getRootFavicon root "favicon.ico";
    getRootFavicon root "apple-touch-icon.png";
    getRootFavicon root "apple-touch-icon-precomposed.png";
    GetHTML root ].

Section Server.

Variable ToNumber : string -> option Z.
Variable url_parse : string -> urlObj.
Variable dirname : string.

(** [var size = 16; if (urlObj.query && urlObj.query.size) size = ...] *)
Definition size_of (req : request) : Cache.requested :=
  match query_size req with
  | Some s => if truthy (Some s) then Cache.Text s else Cache.Number 16
  | None => Cache.Number 16
  end.

(** [rootObj = url.parse (root)], after [http://] is put before a root
    without scheme. *)
Definition rootObj_of (req : request) : urlObj :=
  let root := pathname1 req in
  url_parse (if has_scheme root then root else "http://" ++ root).

(** [cacheDir = __dirname + '/favicons/' + host + "/"] *)
Definition cacheDir_of (req : request) : string :=
  dirname ++ "/favicons/" ++ host (rootObj_of req) ++ "/".

(** The handler passed to [http.createServer], at the time [now], with
    [disk] telling for a path whether the directory exists and what
    [fs.stat] and [fs.readdir] deliver for it. *)
Definition handler (req : request) (now : Z) (disk : string -> option Cache.directory)
  : list action :=
  let size := size_of req in
  let root := pathname1 req in
  if String.eqb root "favicon.ico" then [SendEmpty]
  else
    let rootObj := rootObj_of req in
    let root := protocol rootObj ++ "//" ++ host rootObj in
    let cacheDir := cacheDir_of req in
    match disk cacheDir with
    | None => Mkdir cacheDir :: retrieveAllFavicons root
    | Some d =>
        let expires := now - CACHE_TTL in
        Cache.serveFromCache ToNumber cacheDir size (Some expires)
          (retrieveAllFavicons root) d
    end.

End Server.

(** An action that only answers the request. *)
Definition answers (a : action) : bool :=
  match a with
  | ResponseEnd | SendEmpty | LoadIcon _ => true
  | _ => false
  end.

End Handler.

(** ** Definitions used to state the properties *)

Module Scenario.

(** A server that answers every URL shorter than [bound] with a redirect
    to the URL one character longer, and every other URL with an icon. *)
Definition chain (bound : nat) : Fetch.network :=
  fun _ u =>
    if (String.length u <? bound)%nat
    then Fetch.Response 302 (Some (u ++ "a")) []
    else Fetch.Response 200 None [[x00]].

(** A server that answers every URL with the same status, [location]
    header and body. *)
Definition always (statusCode : Z) (location : option string) (body : buffer)
  : Fetch.network :=
  fun _ _ => Fetch.Response statusCode location [body].

(** The candidate that [getRootFavicon] makes for the classic icon. *)
Definition root_icon : faviconObj :=
  mkFavicon "http://example.com/favicon.ico" None None.

(** Two icons with different bytes, a third with the bytes of the first
    under another URL and with a background colour, and a candidate whose
    fetch brought nothing. *)
Definition icon_a : faviconObj :=
  mkFavicon "http://example.com/favicon.ico" None (Some [x01; x02]).

Definition icon_b : faviconObj :=
  mkFavicon "http://example.com/apple-touch-icon.png" None (Some [x03]).

Definition icon_a_again : faviconObj :=
  mkFavicon "http://example.com/tile.png" (Some "#ffffff") (Some [x01; x02]).

Definition no_icon : faviconObj :=
  mkFavicon "http://example.com/apple-touch-icon-precomposed.png" None None.

(** The cache directory of the fourth testable property: one payload
    converted to the widths 32 and 48, listed in that order. *)
Definition listing : list string := ["0.32.png"; "0.48.png"].

(** The widths named by a listing. *)
Definition widths (files : list string) : list Z :=
  flat_map (fun file =>
              match Cache.width_of file with
              | Some w => match Cache.decimal w with Some n => [n] | None => [] end
              | None => []
              end) files.

(** The width of the file that the loop settled on. *)
Definition chosen (r : Cache.found) : option Z :=
  match r with
  | Cache.Perfect file | Cache.Closest (Some file) _ =>
      match Cache.width_of file with
      | Some w => Cache.decimal w
      | None => None
      end
  | Cache.Closest None _ => None
  end.

(** A parser of absolute URLs with the host [example.com], and a disk on
    which every path is the same directory. *)
Definition parse_example (root : string) : Handler.urlObj :=
  Handler.mkUrl "http:" "example.com".

Definition disk_with (d : Cache.directory) : string -> option Cache.directory :=
  fun _ => Some d.

End Scenario.

Module Arrivals.

(** The candidates that the fetch callbacks hand to [done] with a payload,
    in their order of arrival. *)
Fixpoint arrived (es : list Coordinator.event) : list faviconObj :=
  match es with
  | [] => []
  | Coordinator.RootFavicon o :: rest
  | Coordinator.HtmlFavicon o :: rest =>
      match data o with
      | Some _ => o :: arrived rest
      | None => arrived rest
      end
  | Coordinator.Html _ :: rest => arrived rest
  end.

Definition buffer_eq_dec : forall a b : buffer, {a = b} + {a <> b} :=
  list_eq_dec byte_eq_dec.

(** The arrivals whose bytes no earlier arrival had; [earlier] holds the
    bytes of the arrivals so far. *)
Fixpoint first_arrivals (earlier : list buffer) (os : list faviconObj) : list faviconObj :=
  match os with
  | [] => []
  | o :: rest =>
      match data o with
      | Some b =>
          if in_dec buffer_eq_dec b earlier
          then first_arrivals earlier rest
          else o :: first_arrivals (b :: earlier) rest
      | None => first_arrivals earlier rest
      end
  end.

(** What the stored list satisfies throughout: every entry has a payload
    and no two payloads are the same bytes. *)
Definition distinct_payloads (fs : list faviconObj) : Prop :=
  Forall (fun f => data f <> None) fs /\ NoDup (map data fs).

(** A callback of a candidate fetch, as opposed to the HTML callback. *)
Definition is_fetch (e : Coordinator.event) : bool :=
  match e with
  | Coordinator.Html _ => false
  | _ => true
  end.

(** The candidates that the HTML callback finds, none when there is no
    HTML. *)
Definition html_icons (root protocol : string) (html : option Resolver.html_doc)
  : list faviconObj :=
  match html with
  | Some h =>
      if truthy (Some (Resolver.html_text h))
      then Resolver.parseFaviconURL h root protocol
      else []
  | None => []
  end.

End Arrivals.

Module Listing.

Section Fit.

Variable ToNumber : string -> option Z.
Variable size : Cache.requested.

(** No file of the listing is a perfect fit. *)
Definition no_perfect (files : list string) : Prop :=
  Forall (fun file => Cache.loose_eq ToNumber size (Cache.width_of file) = false) files.

(** The difference of [file] is not positive: it is not oversized. *)
Definition not_oversized (file : string) : Prop :=
  match Cache.difference_of ToNumber (Cache.width_of file) size with
  | Some d => d <= 0
  | None => True
  end.

End Fit.

End Listing.

(** ** Fetching the HTML *)

Module Html.

(** What [protocol.get] delivers to [getHTML]: the body arrives as text,
    [res.setEncoding ('utf-8')]. *)
Inductive page :=
| Page (statusCode : Z) (location : option string) (chunks : list string)
| PageError.

Definition web := Fetch.client -> string -> page.

(** The [protocol] argument of [getHTML]: the text [rootObj.protocol] on
    the call of [retrieveAllFavicons], the client module on the calls that
    [getHTML] makes itself after a redirect. *)
Inductive protocol_arg :=
| Scheme (text : string)
| ClientObject (c : Fetch.client).

(** [protocol + url] converts [protocol] to a text; a module object
    converts to [[object Object]]. *)
Definition text_of (p : protocol_arg) : string :=
  match p with
  | Scheme text => text
  | ClientObject _ => "[object Object]"
  end.

(** The end of one [getHTML] call: the callback is called with the HTML
    or with nothing, an exception is thrown ([url] is undefined), the
    redirects allowed to the model are used up, or the request ended and
    nothing calls the callback. *)
Inductive outcome :=
| Called (html : option string)
| Thrown
| Pending
| Dropped.

(** [chunks.join ('')] *)
Fixpoint join_chunks (chunks : list string) : string :=
  match chunks with
  | [] => EmptyString
  | c :: rest => c ++ join_chunks rest
  end.

(** The URL that [getHTML] requests: its first [if] is the body of
    [fixupUrl]. *)
Definition target (url : string) (protocol : protocol_arg) (root : string) : string :=
  Resolver.fixupUrl url root (text_of protocol).

(** The client that [getHTML] selects for the URL. *)
Definition client_of (url : string) : Fetch.client :=
  if Fetch.test "https://" url then Fetch.https else Fetch.http.

(** [getHTML (url, callback, protocol, root)]; [hops] bounds the redirects
    the model follows, the code has no such bound. *)
Fixpoint getHTML (hops : nat) (net : web) (url : string) (protocol : protocol_arg)
    (root : string) : outcome :=
  let url := target url protocol root in
  let protocol := client_of url in
  match net protocol url with
  | Page statusCode location chunks =>
      if statusCode =? 200 then Called (Some (join_chunks chunks))
      else if (statusCode =? 301) || (statusCode =? 302) then
        match location with
        | Some l =>
            match hops with
            | O => Pending
            | S h => getHTML h net l (ClientObject protocol) root
            end
        | None => Thrown
        end
      else Called None
  | PageError => Called None
  end.

(** [getHTML] of the synchronous predecessor of the server: the same,
    but its ['error'] handler only logs. *)
Fixpoint getHTML_first (hops : nat) (net : web) (url : string) (protocol : protocol_arg)
    (root : string) : outcome :=
  let url := target url protocol root in
  let protocol := client_of url in
  match net protocol url with
  | Page statusCode location chunks =>
      if statusCode =? 200 then Called (Some (join_chunks chunks))
      else if (statusCode =? 301) || (statusCode =? 302) then
        match location with
        | Some l =>
            match hops with
            | O => Pending
            | S h => getHTML_first h net l (ClientObject protocol) root
            end
        | None => Thrown
        end
      else Called None
  | PageError => Dropped
  end.

End Html.

(** ** Saving and converting the stored favicons *)

Module Pipeline.

(** The key of a [for ... in] loop over an array: the index as text. *)
Definition key (j : nat) : string :=
  NilZero.string_of_uint (Nat.to_uint j).

(** [foldername = __dirname + '/favicons/' + host + "/"] *)
Definition foldername_of (dirname host : string) : string :=
  dirname ++ "/favicons/" ++ host ++ "/".

(** [filename = __dirname + '/favicons/tmp/' + host + '-tmp-' + j + '.ico'] *)
Definition filename_of (dirname host : string) (j : nat) : string :=
  dirname ++ "/favicons/tmp/" ++ host ++ "-tmp-" ++ key j ++ ".ico".

(** The [orders] that [convertFn (thisFilename, fi, index)] builds; [j] is
    the variable of the loop as it stands when [convertFn] is called. *)
Definition convertFn (foldername j thisFilename : string) (fi : faviconObj)
  : list string :=
  match bgcolor fi with
  | Some color =>
      if truthy (bgcolor fi) then
        [thisFilename; "-background"; color; "-alpha"; "on"; "-flatten";
         "-set"; "filename:area"; "%w"; foldername ++ j ++ ".%[filename:area].png"]
      else
        [thisFilename; "-alpha"; "on"; "-set"; "filename:area"; "%w";
         foldername ++ j ++ ".%[filename:area].png"]
  | None =>
      [thisFilename; "-alpha"; "on"; "-set"; "filename:area"; "%w";
       foldername ++ j ++ ".%[filename:area].png"]
  end.

(** [saveFavicon (filename, favicon, cb)]: [cb] is called when the file
    was written, and nothing is done when it was not. *)
Definition saveFavicon {A : Type} (written : bool) (filename : string)
    (favicon : faviconObj) (cb : string -> faviconObj -> list A) : list A :=
  if written then cb filename favicon else [].

(** The calls of [imagemagick.convert] that follow one run of the
    completion block over [favicons]; [written] tells for each favicon
    whether its file was written.  The callbacks of [fs.writeFile] run
    after the loop has ended, when [j] is the last key. *)
Fixpoint converts (foldername dirname host last : string) (j : nat)
    (favicons : list faviconObj) (written : list bool) : list (list string) :=
  match favicons, written with
  | fi :: rest, w :: ws =>
      (saveFavicon w (filename_of dirname host j) fi
         (fun thisFilename fi => [convertFn foldername last thisFilename fi])
       ++ converts foldername dirname host last (S j) rest ws)%list
  | _, _ => []
  end.

(** The conversions of the favicons of one completed job. *)
Definition conversions (dirname host : string) (favicons : list faviconObj)
    (written : list bool) : list (list string) :=
  converts (foldername_of dirname host) dirname host
    (key (List.length favicons - 1)) 0 favicons written.

(** How many files were written. *)
Definition count_written (written : list bool) : nat :=
  List.length (filter (fun w => w) written).

End Pipeline.

(** ** More definitions used to state the properties *)

Module Fit.

Section Differences.

Variable ToNumber : string -> option Z.
Variable size : Cache.requested.

(** The difference of [file] is a number and at most [d]. *)
Definition at_most (d : Z) (file : string) : Prop :=
  match Cache.difference_of ToNumber (Cache.width_of file) size with
  | Some x => x <= d
  | None => True
  end.

(** The difference of [file] is below [d], or not a number. *)
Definition below (d : Z) (file : string) : Prop :=
  match Cache.difference_of ToNumber (Cache.width_of file) size with
  | Some x => x < d
  | None => True
  end.

End Differences.

(** A text without dot. *)
Fixpoint dotless (s : string) : bool :=
  match s with
  | EmptyString => true
  | String c rest => negb (Ascii.eqb c ".") && dotless rest
  end.

End Fit.

Module Counting.

(** [if (!/http[s]*:\/\//.test (root)) root = 'http://' + root] *)
Definition normalize (root : string) : string :=
  if Handler.has_scheme root then root else "http://" ++ root.

(** The number of callbacks that [done] counted: every candidate callback,
    and the HTML callback when it found no icon. *)
Fixpoint arrivals (root protocol : string) (es : list Coordinator.event) : Z :=
  match es with
  | [] => 0
  | Coordinator.Html html :: rest =>
      (match Arrivals.html_icons root protocol html with
       | [] => 1
       | _ :: _ => 0
       end) + arrivals root protocol rest
  | _ :: rest => 1 + arrivals root protocol rest
  end.

(** The number of candidates that the HTML callbacks found. *)
Fixpoint found_in_html (root protocol : string) (es : list Coordinator.event) : Z :=
  match es with
  | [] => 0
  | Coordinator.Html html :: rest =>
      Z.of_nat (List.length (Arrivals.html_icons root protocol html))
      + found_in_html root protocol rest
  | _ :: rest => found_in_html root protocol rest
  end.

End Counting.

Module Page.

(** An HTML page with one icon link. *)
Definition one_icon : Resolver.html_doc :=
  Resolver.mkHtml "<link rel='icon' href='/i.png'>"
    [Resolver.mkLink true (Some "/i.png")] [].

(** The candidate found in it, after its fetch. *)
Definition icon_c : faviconObj :=
  mkFavicon "http://example.com/i.png" None (Some [x04]).

End Page.

(** ** Answering *)

Module Reply.

(** What is written to the response. *)
Inductive write :=
| WriteHead (statusCode : Z) (contentType : string)
| End_ (body : option buffer).

Definition RETURN_DEFAULT : bool := false.

(** [sendEmpty (response)] *)
Definition sendEmpty (defaultFavicon : option buffer) : list write :=
  if RETURN_DEFAULT
  then [WriteHead 200 "image/x-icon"; End_ defaultFavicon]
  else [End_ None].

(** [loadIcon (file, response)]; [readFile] gives the content of a file
    that can be read. *)
Definition loadIcon (readFile : string -> option buffer) (defaultFavicon : option buffer)
    (file : string) : list write :=
  match readFile file with
  | Some favicon => [WriteHead 200 "image/png"; End_ (Some favicon)]
  | None => sendEmpty defaultFavicon
  end.

(** What one action of a request writes to the response. *)
Definition respond (readFile : string -> option buffer) (defaultFavicon : option buffer)
    (a : action) : list write :=
  match a with
  | ResponseEnd => [End_ None]
  | SendEmpty => sendEmpty defaultFavicon
  | LoadIcon file => loadIcon readFile defaultFavicon file
  | _ => []
  end.

(** What the actions of a request write, in their order. *)
Definition response (readFile : string -> option buffer) (defaultFavicon : option buffer)
    (acts : list action) : list write :=
  flat_map (respond readFile defaultFavicon) acts.

End Reply.

(** ** The selection stated from the listing *)

Module Choice.

Section Select.

Variable ToNumber : string -> option Z.
Variable size : Cache.requested.

(** The width of [file] equals the requested size. *)
Definition perfect (file : string) : bool :=
  Cache.loose_eq ToNumber size (Cache.width_of file).

(** The difference of [file] is a positive number. *)
Definition oversized (file : string) : bool :=
  match Cache.difference_of ToNumber (Cache.width_of file) size with
  | Some x => 0 <? x
  | None => false
  end.

(** The difference of [file] is the number [d]. *)
Definition differs_by (d : Z) (file : string) : bool :=
  match Cache.difference_of ToNumber (Cache.width_of file) size with
  | Some x => x =? d
  | None => false
  end.

(** The largest of [floor] and the differences of the files. *)
Fixpoint largest (files : list string) (floor : Z) : Z :=
  match files with
  | [] => floor
  | file :: rest =>
      match Cache.difference_of ToNumber (Cache.width_of file) size with
      | Some x => largest rest (Z.max floor x)
      | None => largest rest floor
      end
  end.

(** The file that a lookup selects: the first perfect fit; without one,
    the first oversized file; without one, the first file that has the
    largest difference, provided it is above -100000; else none. *)
Definition choice (files : list string) : option string :=
  match find perfect files with
  | Some file => Some file
  | None =>
      match find oversized files with
      | Some file => Some file
      | None =>
          let d := largest files (-100000) in
          if d =? -100000 then None else find (differs_by d) files
      end
  end.

(** What a lookup over a listing does: it loads the file selected, or
    sends the empty answer and loads [null]. *)
Definition lookup (foldername : string) (files : list string) : list action :=
  match choice files with
  | Some file => [LoadIcon (foldername ++ file)]
  | None => [SendEmpty; LoadIcon (foldername ++ "null")]
  end.

End Select.

End Choice.

Module Pattern.

(** The text of [n] letters [s]. *)
Fixpoint esses (n : nat) : string :=
  match n with
  | O => EmptyString
  | S n' => String "s" (esses n')
  end.

(** The first groups of [href_re] in the links whose [rel] names an icon,
    in document order. *)
Definition hrefs (ls : list Resolver.link_match) : list string :=
  flat_map (fun l =>
              if Resolver.rel_test l
              then match Resolver.href_exec l with
                   | Some v => [v]
                   | None => []
                   end
              else []) ls.

End Pattern.

(** * Properties *)

(** ** URL resolution *)

Import Resolver.

Lemma fixupUrl_double_slash (rest root protocol : string) :
  fixupUrl ("//" ++ rest) root protocol = protocol ++ "//" ++ rest.
Proof. reflexivity. Qed.

Lemma fixupUrl_single_slash (rest root protocol : string) :
  prefix "/" rest = false ->
  fixupUrl ("/" ++ rest) root protocol = root ++ "/" ++ rest.
Proof.
  destruct rest as [|c rest]; [reflexivity|].
  simpl. destruct (Ascii.eqb_spec "/" c) as [<-|Hc].
  - destruct rest; discriminate.
  - intros _. destruct c as [[] [] [] [] [] [] [] []]; try reflexivity.
    now elim Hc.
Qed.

Lemma fixupUrl_other (u root protocol : string) :
  prefix "/" u = false -> fixupUrl u root protocol = u.
Proof.
  destruct u as [|c rest]; [reflexivity|].
  simpl. destruct (Ascii.eqb_spec "/" c) as [<-|Hc].
  - destruct rest; discriminate.
  - intros _. destruct c as [[] [] [] [] [] [] [] []]; try reflexivity.
    now elim Hc.
Qed.

Lemma link_icons_sound (ls : list link_match) (root protocol : string) (c : faviconObj) :
  In c (link_icons ls root protocol) ->
  exists l v, In l ls /\ rel_test l = true /\ href_exec l = Some v
              /\ c = mkFavicon (fixupUrl v root protocol) None None.
Proof.
  induction ls as [|l ls IH]; simpl; [contradiction|].
  destruct (rel_test l) eqn:Hrel, (href_exec l) as [v|] eqn:Hhref; simpl;
    try (intros H; destruct (IH H) as (l' & v' & ? & ?); exists l', v'; tauto).
  intros [<-|H].
  - exists l, v. tauto.
  - destruct (IH H) as (l' & v' & ? & ?). exists l', v'. tauto.
Qed.

Lemma link_icons_complete (ls : list link_match) (root protocol : string)
    (l : link_match) (v : string) :
  In l ls -> rel_test l = true -> href_exec l = Some v ->
  In (mkFavicon (fixupUrl v root protocol) None None) (link_icons ls root protocol).
Proof.
  intros Hin Hrel Hhref. induction ls as [|l' ls IH]; [contradiction|].
  simpl. destruct Hin as [->|Hin].
  - rewrite Hrel, Hhref. now left.
  - destruct (rel_test l'), (href_exec l'); simpl; auto.
Qed.

Lemma tile_icon_sound (tile : option string * option string) (root protocol : string)
    (c : faviconObj) :
  In c (tile_icon tile root protocol) ->
  exists v, fst tile = Some v /\ url c = fixupUrl v root protocol.
Proof.
  destruct tile as [[u|] color]; simpl; [|contradiction].
  destruct u; [contradiction|].
  destruct (truthy color); intros [<-|[]]; eexists; split; reflexivity.
Qed.

Lemma tile_icon_complete (tile : option string * option string) (root protocol v : string) :
  fst tile = Some v -> v <> "" ->
  exists c, tile_icon tile root protocol = [c]
            /\ url c = fixupUrl v root protocol
            /\ bgcolor c = (if truthy (snd tile) then snd tile else None).
Proof.
  destruct tile as [tileURL color]; simpl. intros -> Hv.
  destruct v; [now elim Hv|].
  destruct (truthy color); eexists; repeat split.
Qed.

(** C7.  Every candidate that [parseFaviconURL] emits carries the
    [fixupUrl] of a discovered value (the [href] of a link whose [rel]
    names an icon, or the tile image), every such [href] and every
    non-empty tile image is emitted so, and [fixupUrl] prefixes a value
    beginning with [//] with the protocol, a value beginning with a single
    [/] with the root, and leaves any other value unchanged; so
    [/static/icon.png] under [http://example.com] becomes
    [http://example.com/static/icon.png]. *)
Theorem parseFaviconURL_resolves (html : html_doc) (root protocol : string) :
  (forall c, In c (parseFaviconURL html root protocol) ->
     exists v, discovered html v /\ url c = fixupUrl v root protocol)
  /\ (forall l v, In l (links html) -> rel_test l = true -> href_exec l = Some v ->
        In (mkFavicon (fixupUrl v root protocol) None None)
           (parseFaviconURL html root protocol))
  /\ (forall v, fst (tile_scan (metas html) None None) = Some v -> v <> "" ->
        exists c, In c (parseFaviconURL html root protocol)
                  /\ url c = fixupUrl v root protocol)
  /\ (forall rest, fixupUrl ("//" ++ rest) root protocol = protocol ++ "//" ++ rest)
  /\ (forall rest, prefix "/" rest = false ->
        fixupUrl ("/" ++ rest) root protocol = root ++ "/" ++ rest)
  /\ (forall u, prefix "/" u = false -> fixupUrl u root protocol = u)
  /\ fixupUrl "/static/icon.png" "http://example.com" "http:"
     = "http://example.com/static/icon.png".
Proof.
  repeat split.
  - intros c Hc. unfold parseFaviconURL in Hc. apply in_app_or in Hc.
    destruct Hc as [Hc|Hc].
    + apply link_icons_sound in Hc. destruct Hc as (l & v & Hl & Hrel & Hhref & ->).
      exists v. split; [left; exists l; tauto | reflexivity].
    + apply tile_icon_sound in Hc. destruct Hc as (v & Hv & Hurl).
      exists v. split; [right; exact Hv | exact Hurl].
  - intros l v Hl Hrel Hhref. unfold parseFaviconURL. apply in_or_app. left.
    now apply link_icons_complete with (l := l).
  - intros v Hv Hne.
    destruct (tile_icon_complete _ root protocol v Hv Hne) as (c & Hc & Hurl & _).
    exists c. split; [|exact Hurl].
    unfold parseFaviconURL. apply in_or_app. right. rewrite Hc. now left.
  - intros rest Hrest. now apply fixupUrl_single_slash.
  - intros u Hu. now apply fixupUrl_other.
Qed.

(** The scenario of C7 run through the scan: one tile-icon link with
    [/static/icon.png]. *)
Lemma parseFaviconURL_resolves_witness :
  In (mkFavicon "http://example.com/static/icon.png" None None)
     (parseFaviconURL
        (mkHtml "<link rel='msapplication-tile-icon' href='/static/icon.png'>"
                [mkLink true (Some "/static/icon.png")] [])
        "http://example.com" "http:")
  /\ fixupUrl "//cdn.example.com/i.png" "http://example.com" "http:"
     = "http://cdn.example.com/i.png"
  /\ fixupUrl "/i.png" "http://example.com" "http:" = "http://example.com/i.png"
  /\ fixupUrl "i.png" "http://example.com" "http:" = "i.png".
Proof.
  pose proof (parseFaviconURL_resolves
                (mkHtml "<link rel='msapplication-tile-icon' href='/static/icon.png'>"
                        [mkLink true (Some "/static/icon.png")] [])
                "http://example.com" "http:") as (_ & Hlinks & _ & Hdouble & Hsingle & Hother & _).
  split; [|split; [|split]].
  - apply (Hlinks (mkLink true (Some "/static/icon.png")) "/static/icon.png");
      simpl; auto.
  - apply (Hdouble "cdn.example.com/i.png").
  - apply (Hsingle "i.png"). reflexivity.
  - apply (Hother "i.png"). reflexivity.
Defined.

(** ** Fetching one candidate *)

Import Fetch.

Lemma length_append (s t : string) :
  String.length (s ++ t) = (String.length s + String.length t)%nat.
Proof. induction s as [|c s IH]; simpl; [reflexivity | now rewrite IH]. Qed.

(** The body of [getFavicon], one call unfolded. *)
Lemma getFavicon_unfold (hops : nat) (net : network) (o : faviconObj) :
  getFavicon hops net o =
  let u := lower_first 5 (url o) in
  let p := if test "https://" u then https else http in
  match net p u with
  | Response statusCode location chunks =>
      if statusCode =? 200 then Called (set_data (List.concat chunks) o)
      else if (statusCode =? 301) || (statusCode =? 302) then
        match location with
        | Some l =>
            match hops with
            | O => Pending
            | S h => getFavicon h net (set_url l o)
            end
        | None => Thrown
        end
      else Called o
  | Error => Called o
  end.
Proof. destruct hops; reflexivity. Qed.

(** A candidate without payload is counted as an arrival and stores
    nothing. *)
Lemma fetched_without_payload (o : faviconObj) (s : Coordinator.job) :
  data o = None ->
  Coordinator.returned (fst (Coordinator.fetched o s)) = Coordinator.returned s + 1
  /\ Coordinator.favicons (fst (Coordinator.fetched o s)) = Coordinator.favicons s.
Proof.
  intros Hd. unfold Coordinator.fetched, Coordinator.done. rewrite Hd. simpl.
  destruct (Coordinator.complete _); split; reflexivity.
Qed.

(** A chain of [n] redirects is followed to its end, whatever [n] is. *)
Lemma chain_followed (bound n : nat) (r : string) (bg : option string) :
  (String.length ("http:" ++ r) + n = bound)%nat ->
  (exists u, getFavicon n (Scenario.chain bound) (mkFavicon ("http:" ++ r) bg None)
             = Called (mkFavicon u bg (Some [x00])))
  /\ (forall h, (h < n)%nat ->
        getFavicon h (Scenario.chain bound) (mkFavicon ("http:" ++ r) bg None) = Pending).
Proof.
  revert r. induction n as [|n IH]; intros r Hlen.
  - split; [|intros h Hh; lia].
    exists ("http:" ++ r). rewrite getFavicon_unfold. cbn zeta.
    unfold Scenario.chain.
    replace (lower_first 5 (url (mkFavicon ("http:" ++ r) bg None))) with ("http:" ++ r)
      by reflexivity.
    replace (String.length ("http:" ++ r) <? bound)%nat with false
      by (symmetry; apply Nat.ltb_ge; lia).
    reflexivity.
  - assert (Hnext : (String.length ("http:" ++ (r ++ "a")) + n = bound)%nat).
    { change ("http:" ++ (r ++ "a")) with (("http:" ++ r) ++ "a").
      rewrite length_append. simpl String.length in *. lia. }
    destruct (IH (r ++ "a") Hnext) as [[u Hu] Hpending].
    assert (Hstep : forall h,
               getFavicon (S h) (Scenario.chain bound) (mkFavicon ("http:" ++ r) bg None)
               = getFavicon h (Scenario.chain bound)
                   (mkFavicon ("http:" ++ (r ++ "a")) bg None)).
    { intros h. rewrite getFavicon_unfold. cbn zeta. unfold Scenario.chain at 1.
      replace (lower_first 5 (url (mkFavicon ("http:" ++ r) bg None))) with ("http:" ++ r)
        by reflexivity.
      replace (String.length ("http:" ++ r) <? bound)%nat with true
        by (symmetry; apply Nat.ltb_lt; lia).
      reflexivity. }
    split.
    + exists u. rewrite Hstep. exact Hu.
    + intros [|h] Hh.
      * rewrite getFavicon_unfold. cbn zeta. unfold Scenario.chain.
        replace (lower_first 5 (url (mkFavicon ("http:" ++ r) bg None))) with ("http:" ++ r)
          by reflexivity.
        replace (String.length ("http:" ++ r) <? bound)%nat with true
          by (symmetry; apply Nat.ltb_lt; lia).
        reflexivity.
      * rewrite Hstep. apply Hpending. lia.
Qed.

(** C4, as the code has it.  A response with status 200 gives the
    candidate the whole body as payload; a 301 or 302 response with a
    [location] header fetches again at that location (stated for a
    location that does not begin with [/], which [fixupUrl] leaves as it
    is), and no number of redirects ends the chain; every other status,
    and the ['error'] event that a transport failure or the socket timeout
    raises, calls back with the candidate as it was, which the join counts
    as an arrival without payload. *)
Theorem getFavicon_outcomes (net : network) (o : faviconObj) (hops : nat) :
  let u := lower_first 5 (url o) in
  let p := if test "https://" u then https else http in
  (forall location chunks,
      net p u = Response 200 location chunks ->
      getFavicon hops net o = Called (set_data (List.concat chunks) o))
  /\ (forall statusCode l chunks root protocol,
        statusCode = 301 \/ statusCode = 302 ->
        net p u = Response statusCode (Some l) chunks ->
        prefix "/" l = false ->
        getFavicon (S hops) net o
        = getFavicon hops net (set_url (fixupUrl l root protocol) o))
  /\ (forall statusCode location chunks,
        statusCode <> 200 -> statusCode <> 301 -> statusCode <> 302 ->
        net p u = Response statusCode location chunks ->
        getFavicon hops net o = Called o)
  /\ (net p u = Error -> getFavicon hops net o = Called o)
  /\ (forall s, data o = None ->
        Coordinator.returned (fst (Coordinator.fetched o s)) = Coordinator.returned s + 1
        /\ Coordinator.favicons (fst (Coordinator.fetched o s)) = Coordinator.favicons s)
  /\ (forall n, exists u',
        getFavicon n (Scenario.chain (String.length (url Scenario.root_icon) + n))
          Scenario.root_icon
        = Called (mkFavicon u' None (Some [x00]))
        /\ forall h, (h < n)%nat ->
             getFavicon h (Scenario.chain (String.length (url Scenario.root_icon) + n))
               Scenario.root_icon
             = Pending).
Proof.
  cbn zeta. repeat split.
  - intros location chunks Hnet. rewrite getFavicon_unfold. cbn zeta.
    rewrite Hnet. reflexivity.
  - intros statusCode l chunks root protocol Hst Hnet Hl.
    rewrite (fixupUrl_other l root protocol Hl).
    rewrite (getFavicon_unfold (S hops)). cbn zeta. rewrite Hnet.
    destruct Hst as [-> | ->]; reflexivity.
  - intros statusCode location chunks H200 H301 H302 Hnet.
    rewrite getFavicon_unfold. cbn zeta. rewrite Hnet.
    apply Z.eqb_neq in H200, H301, H302. rewrite H200, H301, H302. reflexivity.
  - intros Hnet. rewrite getFavicon_unfold. cbn zeta. rewrite Hnet. reflexivity.
  - apply fetched_without_payload; assumption.
  - apply fetched_without_payload; assumption.
  - intros n.
    destruct (chain_followed (String.length (url Scenario.root_icon) + n) n
                "//example.com/favicon.ico" None eq_refl) as [[u' Hu'] Hpending].
    exists u'. split; [exact Hu' | exact Hpending].
Qed.

(** A 200 response, a 302 response to an absolute location, and a 404
    response, each through [getFavicon_outcomes]. *)
Lemma getFavicon_outcomes_witness :
  getFavicon 0 (Scenario.always 200 None [x01; x02]) Scenario.root_icon
  = Called (set_data [x01; x02] Scenario.root_icon)
  /\ getFavicon 1 (Scenario.always 302 (Some "http://example.org/i.ico") []) Scenario.root_icon
     = getFavicon 0 (Scenario.always 302 (Some "http://example.org/i.ico") [])
         (set_url "http://example.org/i.ico" Scenario.root_icon)
  /\ getFavicon 0 (Scenario.always 404 None [x01]) Scenario.root_icon
     = Called Scenario.root_icon.
Proof.
  split; [|split].
  - pose proof (getFavicon_outcomes (Scenario.always 200 None [x01; x02])
                  Scenario.root_icon 0) as (H200 & _).
    apply (H200 None [[x01; x02]]). reflexivity.
  - pose proof (getFavicon_outcomes (Scenario.always 302 (Some "http://example.org/i.ico") [])
                  Scenario.root_icon 0) as (_ & H302 & _).
    apply (H302 302 "http://example.org/i.ico" [[]] "http://example.com" "http:");
      [right; reflexivity | reflexivity | reflexivity].
  - pose proof (getFavicon_outcomes (Scenario.always 404 None [x01])
                  Scenario.root_icon 0) as (_ & _ & Hother & _).
    apply (Hother 404 None [[x01]]); [discriminate | discriminate | discriminate | reflexivity].
Defined.

(** C4 as stated fails: a 206 response, which is a 2xx response with a
    body, leaves the candidate without payload, and a 307 response with a
    [location] header is not followed. *)
Lemma getFavicon_other_2xx_3xx :
  ((200 <=? 206) && (206 <? 300) = true
   /\ getFavicon 0 (Scenario.always 206 None [x01; x02]) Scenario.root_icon
      = Called Scenario.root_icon
   /\ payload_of (getFavicon 0 (Scenario.always 206 None [x01; x02]) Scenario.root_icon)
      = None)
  /\ ((300 <=? 307) && (307 <? 400) = true
      /\ getFavicon 8 (Scenario.always 307 (Some "http://example.org/i.ico") [])
           Scenario.root_icon
         = Called Scenario.root_icon).
Proof. repeat split. Qed.

(** ** The join: stored payloads *)

Import Coordinator.
Import Arrivals.

Lemma to_N_inj (x y : byte) : to_N x = to_N y -> x = y.
Proof.
  intros H. pose proof (of_to_N x) as Hx. rewrite H, of_to_N in Hx. now inversion Hx.
Qed.

(** [compare] is [0] exactly on identical buffers. *)
Lemma compare_eq (a b : buffer) : compare a b = 0 <-> a = b.
Proof.
  revert b. induction a as [|x a IH]; intros [|y b]; simpl;
    try (split; [discriminate | discriminate]); [tauto|].
  destruct (to_N x <? to_N y)%N eqn:Hlt.
  - split; [discriminate|]. intros [= -> _]. rewrite N.ltb_irrefl in Hlt. discriminate.
  - destruct (to_N y <? to_N x)%N eqn:Hgt.
    + split; [discriminate|]. intros [= -> _]. rewrite N.ltb_irrefl in Hgt. discriminate.
    + apply N.ltb_ge in Hlt, Hgt.
      assert (x = y) as -> by (apply to_N_inj, N.le_antisymm; assumption).
      rewrite IH. split; [intros ->; reflexivity | intros [= ->]; reflexivity].
Qed.

Lemma same_data_spec (f g : faviconObj) :
  same_data f g = true <-> exists b, data f = Some b /\ data g = Some b.
Proof.
  unfold same_data. destruct (data f) as [a|], (data g) as [b|].
  - rewrite Z.eqb_eq, compare_eq. split.
    + intros ->. now exists b.
    + intros (c & [= ->] & [= ->]). reflexivity.
  - split; [discriminate | intros (c & _ & [=])].
  - split; [discriminate | intros (c & [=] & _)].
  - split; [discriminate | intros (c & [=] & _)].
Qed.

(** [skip] is set exactly when a stored favicon has the bytes of the new
    one. *)
Lemma skip_spec (o : faviconObj) (b : buffer) (fs : list faviconObj) :
  data o = Some b ->
  skip o fs = true <-> In (Some b) (map data fs).
Proof.
  intros Ho. unfold skip. rewrite existsb_exists, in_map_iff. split.
  - intros (g & Hg & Hsame). apply same_data_spec in Hsame.
    destruct Hsame as (c & Hc & Hgc). exists g. split; [congruence | exact Hg].
  - intros (g & Hgb & Hg). exists g. split; [exact Hg|].
    apply same_data_spec. exists b. split; [exact Ho | exact Hgb].
Qed.

Lemma fetched_favicons (o : faviconObj) (s : job) :
  favicons (fst (fetched o s)) =
  match data o with
  | Some b => if skip o (favicons s) then favicons s else favicons s ++ [o]
  | None => favicons s
  end%list.
Proof.
  unfold fetched, done. destruct (data o) as [b|]; simpl.
  - destruct (skip o (favicons s)); simpl; destruct (complete _); reflexivity.
  - destruct (complete _); reflexivity.
Qed.

Lemma fetched_distinct (o : faviconObj) (s : job) :
  distinct_payloads (favicons s) -> distinct_payloads (favicons (fst (fetched o s))).
Proof.
  intros [Hall Hnodup]. rewrite fetched_favicons.
  destruct (data o) as [b|] eqn:Ho; [|split; assumption].
  destruct (skip o (favicons s)) eqn:Hskip; [split; assumption|].
  split.
  - apply Forall_app. split; [assumption|]. constructor; [congruence | constructor].
  - rewrite map_app. simpl. apply NoDup_app.
    + assumption.
    + constructor; [intros [] | constructor].
    + intros d Hd [<-|[]].
      rewrite Ho in Hd. apply (skip_spec o b _ Ho) in Hd. congruence.
Qed.

Lemma html_loaded_favicons (root protocol : string)
    (html : option Resolver.html_doc) (s : job) :
  favicons (fst (html_loaded root protocol html s)) = favicons s.
Proof.
  assert (Hdone : forall s', favicons (fst (let (s'', c) := done None (set_htmlLoaded s')
                                             in (s'', mkEffects [] c))) = favicons s').
  { intros s'. unfold done. simpl. destruct (complete _); reflexivity. }
  unfold html_loaded. destruct html as [h|]; [|apply Hdone].
  destruct (truthy _); [|apply Hdone].
  destruct (0 <? _); [reflexivity | apply Hdone].
Qed.

Lemma step_favicons (root protocol : string) (s : job) (e : event) :
  favicons (fst (step root protocol s e)) =
  match e with
  | RootFavicon o | HtmlFavicon o => favicons (fst (fetched o s))
  | Html _ => favicons s
  end.
Proof.
  destruct e as [o|html|o]; simpl.
  - destruct (fetched o s); reflexivity.
  - apply html_loaded_favicons.
  - destruct (fetched o s); reflexivity.
Qed.

Lemma run_cons (root protocol : string) (s : job) (e : event) (es : list event) :
  fst (run root protocol s (e :: es)) = fst (run root protocol (fst (step root protocol s e)) es).
Proof.
  simpl. destruct (step root protocol s e) as [s' x]. simpl.
  destruct (run root protocol s' es). reflexivity.
Qed.

Lemma run_distinct (root protocol : string) (es : list event) (s : job) :
  distinct_payloads (favicons s) -> distinct_payloads (favicons (fst (run root protocol s es))).
Proof.
  revert s. induction es as [|e es IH]; intros s Hs; [exact Hs|].
  rewrite run_cons. apply IH. rewrite step_favicons.
  destruct e; try apply fetched_distinct; assumption.
Qed.

(** C5.  After any sequence of callbacks, in any order, no two stored
    favicons have the same bytes (and each has a payload); an arriving
    payload that some stored favicon already has is not appended, any
    other is appended at the end. *)
Theorem favicons_never_duplicate (root protocol : string) (es : list event) :
  NoDup (map data (favicons (fst (run root protocol initial es))))
  /\ Forall (fun f => data f <> None) (favicons (fst (run root protocol initial es)))
  /\ (forall s o b, data o = Some b ->
        (In (Some b) (map data (favicons s)) ->
           favicons (fst (fetched o s)) = favicons s)
        /\ (~ In (Some b) (map data (favicons s)) ->
              favicons (fst (fetched o s)) = (favicons s ++ [o])%list)).
Proof.
  assert (Hinit : distinct_payloads (favicons initial)) by (split; constructor).
  destruct (run_distinct root protocol es initial Hinit) as [Hall Hnodup].
  split; [exact Hnodup | split; [exact Hall|]].
  intros s o b Ho. rewrite fetched_favicons, Ho.
  pose proof (skip_spec o b (favicons s) Ho) as Hskip.
  destruct (skip o (favicons s)); split; intros H.
  - reflexivity.
  - elim H. now apply Hskip.
  - apply Hskip in H. discriminate.
  - reflexivity.
Qed.

(** The same bytes arriving twice, between two other arrivals. *)
Lemma favicons_never_duplicate_witness :
  favicons (fst (fetched Scenario.icon_a_again
                   (fst (run "http://example.com" "http:" initial
                           [RootFavicon Scenario.icon_a; RootFavicon Scenario.icon_b]))))
  = [Scenario.icon_a; Scenario.icon_b].
Proof.
  pose proof (favicons_never_duplicate "http://example.com" "http:" []) as (_ & _ & Hstep).
  destruct (Hstep (fst (run "http://example.com" "http:" initial
                          [RootFavicon Scenario.icon_a; RootFavicon Scenario.icon_b]))
                  Scenario.icon_a_again [x01; x02] eq_refl) as [Hknown _].
  rewrite Hknown; [reflexivity|]. simpl. left. reflexivity.
Defined.


Lemma first_arrivals_run (root protocol : string) (es : list event)
    (s : job) (earlier : list buffer) :
  (forall b, In b earlier <-> In (Some b) (map data (favicons s))) ->
  favicons (fst (run root protocol s es))
  = (favicons s ++ first_arrivals earlier (arrived es))%list.
Proof.
  revert s earlier. induction es as [|e es IH]; intros s earlier Hearlier.
  - simpl. now rewrite app_nil_r.
  - rewrite run_cons.
    assert (Hfetch : forall o,
               favicons (fst (run root protocol (fst (fetched o s)) es))
               = (favicons s
                    ++ first_arrivals earlier
                         match data o with
                         | Some _ => o :: arrived es
                         | None => arrived es
                         end)%list).
    { intros o. pose proof (fetched_favicons o s) as Hfav.
      destruct (data o) as [b|] eqn:Ho.
      - simpl. rewrite Ho.
        pose proof (skip_spec o b (favicons s) Ho) as Hskip.
        destruct (in_dec buffer_eq_dec b earlier) as [Hin|Hnin].
        + assert (Htrue : skip o (favicons s) = true) by now apply Hskip, Hearlier.
          rewrite Htrue in Hfav.
          rewrite (IH _ earlier); rewrite Hfav; [reflexivity | exact Hearlier].
        + assert (Hfalse : skip o (favicons s) = false).
          { destruct (skip o (favicons s)); [|reflexivity].
            elim Hnin. apply Hearlier, Hskip. reflexivity. }
          rewrite Hfalse in Hfav.
          rewrite (IH _ (b :: earlier)); rewrite Hfav.
          * now rewrite <- app_assoc.
          * intros c. rewrite map_app, in_app_iff. simpl. rewrite Ho, <- Hearlier.
            split; [intros [<-|H]; auto | intros [H|[[= <-]|[]]]; auto].
      - rewrite (IH _ earlier); rewrite Hfav; [reflexivity | exact Hearlier]. }
    destruct e as [o|html|o]; simpl arrived.
    + replace (fst (step root protocol s (RootFavicon o))) with (fst (fetched o s))
        by (simpl; destruct (fetched o s); reflexivity).
      apply Hfetch.
    + rewrite (IH _ earlier); rewrite step_favicons; [reflexivity | exact Hearlier].
    + replace (fst (step root protocol s (HtmlFavicon o))) with (fst (fetched o s))
        by (simpl; destruct (fetched o s); reflexivity).
      apply Hfetch.
Qed.

Lemma fetched_known (o : faviconObj) (b : buffer) (s : job) :
  data o = Some b -> In (Some b) (map data (favicons s)) ->
  returned (fst (fetched o s)) = returned s + 1
  /\ favicons (fst (fetched o s)) = favicons s
  /\ stored (fst (fetched o s)) = stored s.
Proof.
  intros Ho Hin. apply (skip_spec o b _ Ho) in Hin.
  unfold fetched, done. rewrite Ho. simpl. rewrite Hin.
  destruct (complete _); simpl; repeat split.
Qed.

(** C10.  The stored favicons are, in arrival order, the arrivals whose
    bytes no earlier arrival had; an arrival whose bytes are already
    stored is counted in [returned] and leaves [favicons] and [stored] as
    they were, so the entry that arrived first stays, with its URL and
    background colour. *)
Theorem duplicate_arrival_keeps_first (root protocol : string) (es : list event) :
  favicons (fst (run root protocol initial es)) = first_arrivals [] (arrived es)
  /\ (forall s o b,
        data o = Some b -> In (Some b) (map data (favicons s)) ->
        returned (fst (fetched o s)) = returned s + 1
        /\ favicons (fst (fetched o s)) = favicons s
        /\ stored (fst (fetched o s)) = stored s).
Proof.
  split.
  - rewrite (first_arrivals_run root protocol es initial []); [reflexivity|].
    intros b. simpl. tauto.
  - intros s o b. apply fetched_known.
Qed.

(** The tile icon arrives with the bytes of the root icon stored before
    it: the root icon stays, without background colour. *)
Lemma duplicate_arrival_keeps_first_witness :
  returned (fst (fetched Scenario.icon_a_again
                   (fst (run "http://example.com" "http:" initial
                           [RootFavicon Scenario.icon_a]))))
  = 2
  /\ favicons (fst (fetched Scenario.icon_a_again
                      (fst (run "http://example.com" "http:" initial
                              [RootFavicon Scenario.icon_a]))))
     = [Scenario.icon_a]
  /\ stored (fst (fetched Scenario.icon_a_again
                    (fst (run "http://example.com" "http:" initial
                            [RootFavicon Scenario.icon_a]))))
     = 1.
Proof.
  pose proof (duplicate_arrival_keeps_first "http://example.com" "http:" []) as [_ Hstep].
  apply (Hstep (fst (run "http://example.com" "http:" initial
                       [RootFavicon Scenario.icon_a]))
               Scenario.icon_a_again [x01; x02]).
  - reflexivity.
  - simpl. left. reflexivity.
Defined.

(** ** The join: counting arrivals *)

Lemma fetched_counters (o : faviconObj) (s : job) :
  returned (fst (fetched o s)) = returned s + 1
  /\ expected (fst (fetched o s)) = expected s
  /\ htmlLoaded (fst (fetched o s)) = htmlLoaded s
  /\ snd (fetched o s)
     = if (expected s <=? returned s + 1) && htmlLoaded s
       then Some (completion (fst (fetched o s)))
       else None.
Proof.
  assert (Hdone : forall n,
             returned (fst (done n s)) = returned s + 1
             /\ expected (fst (done n s)) = expected s
             /\ htmlLoaded (fst (done n s)) = htmlLoaded s
             /\ snd (done n s)
                = if (expected s <=? returned s + 1) && htmlLoaded s
                  then Some (completion (fst (done n s)))
                  else None).
  { intros n. unfold done, complete.
    assert (Harrive : returned (arrive n s) = returned s + 1
                      /\ expected (arrive n s) = expected s
                      /\ htmlLoaded (arrive n s) = htmlLoaded s).
    { destruct n as [f|]; simpl; [destruct (skip f (favicons s))|]; repeat split. }
    destruct Harrive as (-> & -> & ->).
    destruct ((expected s <=? returned s + 1) && htmlLoaded s); simpl;
      destruct n as [f|]; simpl; try destruct (skip f (favicons s)); repeat split. }
  unfold fetched. destruct (data o); apply Hdone.
Qed.

Lemma step_fetch (root protocol : string) (s : job) (e : event) :
  is_fetch e = true ->
  returned (fst (step root protocol s e)) = returned s + 1
  /\ expected (fst (step root protocol s e)) = expected s
  /\ htmlLoaded (fst (step root protocol s e)) = htmlLoaded s
  /\ (completed (snd (step root protocol s e)) <> None
      <-> (expected s <=? returned s + 1) && htmlLoaded s = true).
Proof.
  intros He. destruct e as [o|html|o]; try discriminate; simpl;
    pose proof (fetched_counters o s) as (Hr & He' & Hh & Hc);
    destruct (fetched o s) as [s' c]; simpl in *; subst c;
    (repeat split; try assumption);
    destruct ((expected s <=? returned s + 1) && htmlLoaded s);
    try discriminate; try congruence.
Qed.

Lemma completions_cons (root protocol : string) (s : job) (e : event) (es : list event) :
  completions (snd (run root protocol s (e :: es)))
  = (match completed (snd (step root protocol s e)) with Some _ => 1 | None => 0 end
     + completions (snd (run root protocol (fst (step root protocol s e)) es)))%nat.
Proof.
  simpl. destruct (step root protocol s e) as [s' x]. simpl.
  destruct (run root protocol s' es) as [s'' xs]. simpl.
  destruct (completed x); reflexivity.
Qed.

Lemma run_app (root protocol : string) (s : job) (es es' : list event) :
  fst (run root protocol s (es ++ es'))
  = fst (run root protocol (fst (run root protocol s es)) es')
  /\ completions (snd (run root protocol s (es ++ es')))
     = (completions (snd (run root protocol s es))
        + completions (snd (run root protocol (fst (run root protocol s es)) es')))%nat.
Proof.
  revert s. induction es as [|e es IH]; intros s; [split; reflexivity|].
  rewrite <- app_comm_cons, !run_cons, !completions_cons.
  destruct (IH (fst (step root protocol s e))) as [-> ->]. split; [reflexivity | lia].
Qed.

(** Candidate callbacks that arrive before the HTML callback only count. *)
Lemma run_before_html (root protocol : string) (es : list event) (s : job) :
  forallb is_fetch es = true -> htmlLoaded s = false ->
  returned (fst (run root protocol s es)) = returned s + Z.of_nat (List.length es)
  /\ expected (fst (run root protocol s es)) = expected s
  /\ htmlLoaded (fst (run root protocol s es)) = false
  /\ completions (snd (run root protocol s es)) = O.
Proof.
  revert s. induction es as [|e es IH]; intros s Hes Hs.
  - simpl. repeat split; [lia | assumption].
  - simpl in Hes. apply andb_prop in Hes. destruct Hes as [He Hes].
    destruct (step_fetch root protocol s e He) as (Hr & Hx & Hh & Hc).
    rewrite run_cons, completions_cons.
    destruct (IH (fst (step root protocol s e)) Hes) as (-> & -> & -> & ->);
      [congruence|].
    rewrite Hr, Hx. repeat split; [simpl List.length; lia|].
    destruct (completed (snd (step root protocol s e))) as [l|]; [|reflexivity].
    assert (Hsome : Some l <> None) by discriminate.
    apply Hc in Hsome. rewrite Hs, andb_false_r in Hsome. discriminate.
Qed.

(** After the HTML callback, the completion block runs at every candidate
    callback from the one that brings [returned] up to [expected] on. *)
Lemma run_after_html (root protocol : string) (es : list event) (s : job) :
  forallb is_fetch es = true -> htmlLoaded s = true ->
  returned (fst (run root protocol s es)) = returned s + Z.of_nat (List.length es)
  /\ expected (fst (run root protocol s es)) = expected s
  /\ Z.of_nat (completions (snd (run root protocol s es)))
     = Z.of_nat (List.length es)
       - Z.min (Z.of_nat (List.length es)) (Z.max 0 (expected s - returned s - 1)).
Proof.
  revert s. induction es as [|e es IH]; intros s Hes Hs.
  - simpl. repeat split; lia.
  - simpl in Hes. apply andb_prop in Hes. destruct Hes as [He Hes].
    destruct (step_fetch root protocol s e He) as (Hr & Hx & Hh & Hc).
    rewrite run_cons, completions_cons.
    destruct (IH (fst (step root protocol s e)) Hes) as (-> & -> & Hn);
      [congruence|].
    rewrite Hr, Hx in *. simpl List.length in *.
    repeat split; [lia|].
    rewrite Nat2Z.inj_add, Hn. rewrite Hs, andb_true_r in Hc.
    destruct (completed (snd (step root protocol s e))) as [l|].
    + assert (Hle : (expected s <=? returned s + 1) = true) by (apply Hc; discriminate).
      apply Z.leb_le in Hle. lia.
    + assert (Hgt : (expected s <=? returned s + 1) <> true)
        by (intros H; apply Hc in H; congruence).
      apply not_true_is_false, Z.leb_gt in Hgt. lia.
Qed.

(** [expected] starts at 3 and no callback lowers it. *)
Lemma expected_never_decreases (root protocol : string) (s : job) (e : event) :
  expected initial = 3 /\ expected s <= expected (fst (step root protocol s e)).
Proof.
  split; [reflexivity|].
  destruct e as [o|html|o]; simpl.
  - pose proof (fetched_counters o s) as (_ & Hx & _).
    destruct (fetched o s); simpl in *; lia.
  - assert (Hdone : forall s', expected (fst (let (s'', c) := done None (set_htmlLoaded s')
                                               in (s'', mkEffects [] c))) = expected s').
    { intros s'. unfold done. simpl. destruct (complete _); reflexivity. }
    unfold html_loaded. destruct html as [h|]; [|rewrite Hdone; lia].
    destruct (truthy _); [|rewrite Hdone; lia].
    destruct (0 <? _) eqn:Hpos; [|rewrite Hdone; lia].
    simpl. lia.
  - pose proof (fetched_counters o s) as (_ & Hx & _).
    destruct (fetched o s); simpl in *; lia.
Qed.

(** X1.  When the HTML names at least one icon, the completion block runs
    once, at the last callback and not before, with [returned] equal to
    [expected], in whatever order the callbacks arrive. *)
Lemma html_icons_complete_once (root protocol : string)
    (html : option Resolver.html_doc) (before after : list event) :
  forallb is_fetch before = true -> forallb is_fetch after = true ->
  html_icons root protocol html <> [] ->
  (List.length before + List.length after
   = 3 + List.length (html_icons root protocol html))%nat ->
  (List.length before <= 3)%nat ->
  let r := run root protocol initial (before ++ Html html :: after) in
  completions (snd r) = 1%nat
  /\ returned (fst r) = expected (fst r)
  /\ expected (fst r) = 3 + Z.of_nat (List.length (html_icons root protocol html))
  /\ completions (snd (run root protocol initial (before ++ Html html :: removelast after)))
     = O.
Proof.
  intros Hbefore Hafter Hicons Hlen Hle.
  destruct (run_before_html root protocol before initial Hbefore eq_refl)
    as (Hr & Hx & Hh & Hc).
  set (s1 := fst (run root protocol initial before)) in *.
  assert (Hstep : fst (step root protocol s1 (Html html))
                  = set_htmlLoaded
                      (add_expected (Z.of_nat (List.length (html_icons root protocol html))) s1)
                  /\ completed (snd (step root protocol s1 (Html html))) = None).
  { unfold html_icons in *. unfold step, html_loaded.
    destruct html as [h|]; [|now elim Hicons].
    destruct (truthy (Some (Resolver.html_text h))); [|now elim Hicons].
    destruct (Resolver.parseFaviconURL h root protocol) as [|c cs]; [now elim Hicons|].
    split; reflexivity. }
  destruct Hstep as [Hs2 Hnone].
  set (k := html_icons root protocol html) in *.
  assert (Hafter' : forallb is_fetch (removelast after) = true).
  { clear -Hafter. induction after as [|e [|e' after'] IH]; [reflexivity | reflexivity |].
    change (removelast (e :: e' :: after')) with (e :: removelast (e' :: after')).
    simpl in Hafter |- *. apply andb_prop in Hafter. destruct Hafter as [-> Hafter].
    simpl. apply IH. exact Hafter. }
  assert (Hlast : (List.length (removelast after) = List.length after - 1)%nat).
  { clear. induction after as [|e [|e' after'] IH]; [reflexivity | reflexivity |].
    change (removelast (e :: e' :: after')) with (e :: removelast (e' :: after')).
    simpl List.length in *. lia. }
  assert (Hk : (0 < List.length k)%nat) by (destruct k; [now elim Hicons | simpl; lia]).
  cbn zeta.
  destruct (run_app root protocol initial before (Html html :: after)) as [-> ->].
  destruct (run_app root protocol initial before (Html html :: removelast after)) as [_ ->].
  fold s1. rewrite !run_cons, !completions_cons, Hnone, Hs2, Hc.
  destruct (run_after_html root protocol after
              (set_htmlLoaded (add_expected (Z.of_nat (List.length k)) s1)) Hafter eq_refl)
    as (-> & -> & Hn).
  destruct (run_after_html root protocol (removelast after)
              (set_htmlLoaded (add_expected (Z.of_nat (List.length k)) s1)) Hafter' eq_refl)
    as (_ & _ & Hn').
  simpl returned in *. simpl expected in *. rewrite Hr, Hx in *.
  change (returned initial) with 0 in *. change (expected initial) with 3 in *.
  repeat split; lia.
Qed.

(** X2.  When the HTML is missing or names no icon, its callback counts as
    an arrival that [expected] does not include: [returned] ends at 4 with
    [expected] at 3, and the completion block runs twice unless the HTML
    callback is the last one to arrive. *)
Lemma html_without_icons_overcounts (root protocol : string)
    (html : option Resolver.html_doc) (before after : list event) :
  forallb is_fetch before = true -> forallb is_fetch after = true ->
  html_icons root protocol html = [] ->
  (List.length before + List.length after = 3)%nat ->
  let r := run root protocol initial (before ++ Html html :: after) in
  returned (fst r) = 4
  /\ expected (fst r) = 3
  /\ completions (snd r) = (if (List.length before =? 3)%nat then 1 else 2)%nat.
Proof.
  intros Hbefore Hafter Hicons Hlen.
  destruct (run_before_html root protocol before initial Hbefore eq_refl)
    as (Hr & Hx & Hh & Hc).
  set (s1 := fst (run root protocol initial before)) in *.
  assert (Hstep : step root protocol s1 (Html html)
                  = let (s', c) := done None (set_htmlLoaded s1) in (s', mkEffects [] c)).
  { unfold html_icons in Hicons. unfold step, html_loaded.
    destruct html as [h|]; [|reflexivity].
    destruct (truthy (Some (Resolver.html_text h))); [|reflexivity].
    rewrite Hicons. reflexivity. }
  assert (Hdone : returned (fst (step root protocol s1 (Html html))) = returned s1 + 1
                  /\ expected (fst (step root protocol s1 (Html html))) = expected s1
                  /\ htmlLoaded (fst (step root protocol s1 (Html html))) = true
                  /\ completed (snd (step root protocol s1 (Html html)))
                     = if expected s1 <=? returned s1 + 1
                       then Some (completion (fst (step root protocol s1 (Html html))))
                       else None).
  { rewrite Hstep. unfold done, complete. simpl.
    destruct (expected s1 <=? returned s1 + 1); simpl; repeat split. }
  destruct Hdone as (Hr2 & Hx2 & Hh2 & Hc2).
  cbn zeta.
  destruct (run_app root protocol initial before (Html html :: after)) as [-> ->].
  fold s1. rewrite run_cons, completions_cons, Hc2, Hc.
  destruct (run_after_html root protocol after _ Hafter Hh2) as (-> & -> & Hn).
  rewrite Hr2, Hx2, Hr, Hx in *.
  change (returned initial) with 0 in *. change (expected initial) with 3 in *.
  repeat split; [lia|].
  destruct (3 <=? 0 + Z.of_nat (List.length before) + 1) eqn:Hle;
    [apply Z.leb_le in Hle | apply Z.leb_gt in Hle];
    destruct (List.length before =? 3)%nat eqn:H3;
    [apply Nat.eqb_eq in H3 | apply Nat.eqb_neq in H3
     | apply Nat.eqb_eq in H3 | apply Nat.eqb_neq in H3]; lia.
Qed.

(** C1, where the code departs from it.  The HTML fetch brings nothing and
    calls back first; two root callbacks later the completion block runs,
    with the third root fetch still out, and it runs a second time when
    that fetch calls back. *)
Theorem completion_runs_twice :
  map completed
      (snd (run "http://example.com" "http:" initial
              [Html None; RootFavicon Scenario.icon_a; RootFavicon Scenario.no_icon;
               RootFavicon Scenario.icon_b]))
  = [None; None;
     Some [SaveFavicon 0 Scenario.icon_a];
     Some [SaveFavicon 0 Scenario.icon_a; SaveFavicon 1 Scenario.icon_b]]
  /\ completions
       (snd (run "http://example.com" "http:" initial
               [Html None; RootFavicon Scenario.icon_a; RootFavicon Scenario.no_icon;
                RootFavicon Scenario.icon_b]))
     = 2%nat.
Proof. split; reflexivity. Qed.

(** C2, where the code departs from it.  The three root fetches call back,
    then the HTML fetch brings nothing: the completion block runs with
    [returned] at 4 and [expected] at 3. *)
Theorem returned_exceeds_expected :
  run "http://example.com" "http:" initial
      [RootFavicon Scenario.icon_a; RootFavicon Scenario.no_icon;
       RootFavicon Scenario.no_icon; Html None]
  = (mkJob 4 3 true 0 1 [Scenario.icon_a],
     [mkEffects [] None; mkEffects [] None; mkEffects [] None;
      mkEffects [] (Some [SaveFavicon 0 Scenario.icon_a])]).
Proof. reflexivity. Qed.

(** ** The join of the conversions *)

Lemma converted_one_counts (foldername : string) (err : bool) (s : job) :
  converted (fst (converted_one foldername err s)) = converted s + 1
  /\ stored (fst (converted_one foldername err s)) = stored s
  /\ snd (converted_one foldername err s)
     = if converted s + 1 =? stored s then [ServeFromCache foldername] else [].
Proof. repeat split. Qed.

Lemma join_cons (cb : bool -> job -> job * list action) (err : bool)
    (errs : list bool) (s : job) :
  join cb (err :: errs) s
  = (fst (join cb errs (fst (cb err s))),
     (snd (cb err s) ++ snd (join cb errs (fst (cb err s))))%list).
Proof.
  simpl. destruct (cb err s) as [s' a]. simpl.
  destruct (join cb errs s'). reflexivity.
Qed.

(** In [server.js] every conversion that reports back is counted, failed
    or not, and the cache is read again once, by the report that brings
    [converted] up to [stored]. *)
Lemma join_converted_one (foldername : string) (errs : list bool) (s : job) :
  converted s + Z.of_nat (List.length errs) <= stored s ->
  converted (fst (join (converted_one foldername) errs s))
  = converted s + Z.of_nat (List.length errs)
  /\ stored (fst (join (converted_one foldername) errs s)) = stored s
  /\ snd (join (converted_one foldername) errs s)
     = if (converted s + Z.of_nat (List.length errs) =? stored s)
          && negb (Nat.eqb (List.length errs) 0)
       then [ServeFromCache foldername] else [].
Proof.
  revert s. induction errs as [|err errs IH]; intros s Hle.
  - simpl. rewrite andb_false_r. repeat split; lia.
  - rewrite join_cons. cbn [fst snd].
    destruct (converted_one_counts foldername err s) as (Hc & Hs & Ha).
    simpl List.length in *.
    destruct (IH (fst (converted_one foldername err s))) as (Hc' & Hs' & Hb); [lia|].
    rewrite Hc', Hs', Hb, Ha, Hc, Hs. repeat split; [lia|].
    simpl negb. rewrite andb_true_r.
    destruct errs as [|err' errs].
    + simpl. replace (converted s + Z.of_nat 1) with (converted s + 1) by lia.
      rewrite andb_false_r. apply app_nil_r.
    + simpl List.length in *.
      replace (converted s + 1 =? stored s) with false
        by (symmetry; apply Z.eqb_neq; lia).
      replace (converted s + 1 + Z.of_nat (S (List.length errs)))
        with (converted s + Z.of_nat (S (S (List.length errs)))) by lia.
      simpl negb. rewrite andb_true_r. reflexivity.
Qed.

(** C6, where the code departs from it.  In the synchronous predecessor of
    [server.js] one payload is stored and its conversion fails: the
    failure is counted, [converted] reaches [stored], and the cache is not
    read again; the callback of [server.js] reads it on the same input. *)
Theorem failed_conversion_skips_lookup :
  converted_one_sync "favicons/example.com/" true (mkJob 4 4 true 0 1 [Scenario.icon_a])
  = (mkJob 4 4 true 1 1 [Scenario.icon_a], [])
  /\ converted_one "favicons/example.com/" true (mkJob 4 4 true 0 1 [Scenario.icon_a])
     = (mkJob 4 4 true 1 1 [Scenario.icon_a], [ServeFromCache "favicons/example.com/"]).
Proof. split; reflexivity. Qed.

(** ** The cache *)

Import Cache.

Section BestFit.

Variable ToNumber : string -> option Z.
Variable size : requested.

Lemma best_perfect (before after : list string) (file : string)
    (bestFit : option string) (bestFitDifference : Z) :
  Listing.no_perfect ToNumber size before ->
  loose_eq ToNumber size (width_of file) = true ->
  best ToNumber size (before ++ file :: after) bestFit bestFitDifference = Perfect file.
Proof.
  intros Hbefore Hfile. revert bestFit bestFitDifference.
  induction Hbefore as [|f before Hf _ IH]; intros bestFit bestFitDifference; simpl.
  - now rewrite Hfile.
  - rewrite Hf.
    destruct (exceeds _ _ && _); [apply IH|].
    destruct (exceeds _ _); [|apply IH].
    destruct (difference_of _ _ _); apply IH.
Qed.

Lemma best_step (file : string) (rest : list string)
    (bestFit : option string) (bestFitDifference : Z) :
  loose_eq ToNumber size (width_of file) = false ->
  best ToNumber size (file :: rest) bestFit bestFitDifference
  = match difference_of ToNumber (width_of file) size with
    | Some d =>
        if (bestFitDifference <? d) && (bestFitDifference <=? 0)
        then best ToNumber size rest (Some file) d
        else best ToNumber size rest bestFit bestFitDifference
    | None => best ToNumber size rest bestFit bestFitDifference
    end.
Proof.
  intros Hfile. simpl. rewrite Hfile.
  destruct (difference_of ToNumber (width_of file) size) as [d|]; simpl; [|reflexivity].
  destruct (bestFitDifference <? d) eqn:Hlt; simpl; [|reflexivity].
  destruct (0 <? bestFitDifference) eqn:Hpos;
    [apply Z.ltb_lt in Hpos | apply Z.ltb_ge in Hpos].
  - replace (bestFitDifference <=? 0) with false by (symmetry; apply Z.leb_gt; lia).
    reflexivity.
  - replace (bestFitDifference <=? 0) with true by (symmetry; apply Z.leb_le; lia).
    reflexivity.
Qed.

(** An oversized best is never replaced. *)
Lemma best_frozen (files : list string) (bestFit : option string) (bestFitDifference : Z) :
  0 < bestFitDifference -> Listing.no_perfect ToNumber size files ->
  best ToNumber size files bestFit bestFitDifference = Closest bestFit bestFitDifference.
Proof.
  intros Hpos Hfiles. induction Hfiles as [|f files Hf _ IH]; [reflexivity|].
  rewrite (best_step f files _ _ Hf).
  destruct (difference_of ToNumber (width_of f) size) as [d|]; [|exact IH].
  replace (bestFitDifference <=? 0) with false by (symmetry; apply Z.leb_gt; lia).
  rewrite andb_false_r. exact IH.
Qed.

Lemma best_undersized (before rest : list string) (bestFit : option string)
    (bestFitDifference : Z) :
  bestFitDifference <= 0 ->
  Listing.no_perfect ToNumber size before ->
  Forall (Listing.not_oversized ToNumber size) before ->
  exists bestFit' bestFitDifference',
    bestFitDifference' <= 0
    /\ best ToNumber size (before ++ rest) bestFit bestFitDifference
       = best ToNumber size rest bestFit' bestFitDifference'.
Proof.
  intros Hle Hbefore. revert bestFit bestFitDifference Hle.
  induction Hbefore as [|f before Hf _ IH]; intros bestFit bestFitDifference Hle Hunder.
  - exists bestFit, bestFitDifference. split; [exact Hle | reflexivity].
  - inversion Hunder as [|? ? Hd Hunder']; subst.
    rewrite <- app_comm_cons, (best_step f _ _ _ Hf).
    unfold Listing.not_oversized in Hd.
    destruct (difference_of ToNumber (width_of f) size) as [d|]; [|now apply IH].
    destruct ((bestFitDifference <? d) && (bestFitDifference <=? 0)); now apply IH.
Qed.

(** Without a perfect fit, the first oversized file of the listing is the
    one chosen. *)
Lemma best_first_oversized (before after : list string) (file : string) (d : Z) :
  Listing.no_perfect ToNumber size (before ++ file :: after) ->
  Forall (Listing.not_oversized ToNumber size) before ->
  difference_of ToNumber (width_of file) size = Some d -> 0 < d ->
  best ToNumber size (before ++ file :: after) None (-100000) = Closest (Some file) d.
Proof.
  intros Hno Hunder Hd Hpos.
  apply Forall_app in Hno. destruct Hno as [Hbefore Hrest].
  inversion Hrest as [|? ? Hfile Hafter]; subst.
  destruct (best_undersized before (file :: after) None (-100000))
    as (bestFit' & d' & Hle & ->); [lia | assumption | assumption |].
  rewrite (best_step file after _ _ Hfile), Hd.
  replace (d' <? d) with true by (symmetry; apply Z.ltb_lt; lia).
  replace (d' <=? 0) with true by (symmetry; apply Z.leb_le; lia).
  simpl. now apply best_frozen.
Qed.

End BestFit.

Section Chosen.

Variable ToNumber : string -> option Z.
Variable size : requested.

Lemma best_listed (files : list string) (bestFit : option string) (bestFitDifference : Z) :
  match best ToNumber size files bestFit bestFitDifference with
  | Perfect file => In file files /\ loose_eq ToNumber size (width_of file) = true
  | Closest bestFit' d =>
      Listing.no_perfect ToNumber size files
      /\ ((bestFit' = bestFit /\ d = bestFitDifference)
          \/ exists file, bestFit' = Some file /\ In file files
                          /\ difference_of ToNumber (width_of file) size = Some d
                          /\ bestFitDifference < d)
  end.
Proof.
  revert bestFit bestFitDifference.
  induction files as [|f files IH]; intros bestFit bestFitDifference.
  - simpl. split; [constructor | now left].
  - destruct (loose_eq ToNumber size (width_of f)) eqn:Hf.
    + simpl. rewrite Hf. split; [now left | exact Hf].
    + rewrite (best_step ToNumber size f files _ _ Hf).
      assert (Hkeep : match best ToNumber size files bestFit bestFitDifference with
                      | Perfect file =>
                          In file (f :: files)
                          /\ loose_eq ToNumber size (width_of file) = true
                      | Closest bestFit' d =>
                          Listing.no_perfect ToNumber size (f :: files)
                          /\ ((bestFit' = bestFit /\ d = bestFitDifference)
                              \/ exists file, bestFit' = Some file /\ In file (f :: files)
                                   /\ difference_of ToNumber (width_of file) size = Some d
                                   /\ bestFitDifference < d)
                      end).
      { specialize (IH bestFit bestFitDifference).
        destruct (best ToNumber size files bestFit bestFitDifference) as [file|b d].
        - destruct IH as [Hin Hperfect]. split; [now right | exact Hperfect].
        - destruct IH as [Hno [Hsame | (file & Hb & Hin & Hd & Hlt)]].
          + split; [now constructor | now left].
          + split; [now constructor|]. right. exists file. repeat split; auto.
            now right. }
      destruct (difference_of ToNumber (width_of f) size) as [d0|] eqn:Hd0; [|exact Hkeep].
      destruct ((bestFitDifference <? d0) && (bestFitDifference <=? 0)) eqn:Hreplace;
        [|exact Hkeep].
      apply andb_prop in Hreplace. destruct Hreplace as [Hlt _]. apply Z.ltb_lt in Hlt.
      specialize (IH (Some f) d0).
      destruct (best ToNumber size files (Some f) d0) as [file|b d].
      * destruct IH as [Hin Hperfect]. split; [now right | exact Hperfect].
      * destruct IH as [Hno [[-> ->] | (file & Hb & Hin & Hd & Hlt')]].
        -- split; [now constructor|]. right. exists f. repeat split; auto. now left.
        -- split; [now constructor|]. right. exists file. repeat split; auto.
           ++ now right.
           ++ lia.
Qed.

Lemma best_largest (files : list string) :
  forall (bestFit : option string) (bestFitDifference : Z),
    bestFitDifference <= 0 ->
    Listing.no_perfect ToNumber size files ->
    Forall (Fit.at_most ToNumber size 0) files ->
    exists bestFit' d,
      best ToNumber size files bestFit bestFitDifference = Closest bestFit' d
      /\ bestFitDifference <= d <= 0
      /\ Forall (Fit.at_most ToNumber size d) files
      /\ ((bestFit' = bestFit /\ d = bestFitDifference)
          \/ exists before file after,
               files = (before ++ file :: after)%list
               /\ bestFit' = Some file
               /\ difference_of ToNumber (width_of file) size = Some d
               /\ bestFitDifference < d
               /\ Forall (Fit.below ToNumber size d) before).
Proof.
  induction files as [|f files IH]; intros bestFit bestFitDifference Hle Hno Hunder.
  - exists bestFit, bestFitDifference. simpl. repeat split; try lia; [constructor | now left].
  - inversion Hno as [|? ? Hf Hno']; subst. inversion Hunder as [|? ? Hd Hunder']; subst.
    rewrite (best_step ToNumber size f files _ _ Hf).
    unfold Fit.at_most in Hd.
    assert (Hkeep : forall x,
               match difference_of ToNumber (width_of f) size with
               | Some d0 => d0 <= bestFitDifference
               | None => True
               end ->
               best ToNumber size files bestFit bestFitDifference = x ->
               exists bestFit' d,
                 x = Closest bestFit' d
                 /\ bestFitDifference <= d <= 0
                 /\ Forall (Fit.at_most ToNumber size d) (f :: files)
                 /\ ((bestFit' = bestFit /\ d = bestFitDifference)
                     \/ exists before file after,
                          f :: files = (before ++ file :: after)%list
                          /\ bestFit' = Some file
                          /\ difference_of ToNumber (width_of file) size = Some d
                          /\ bestFitDifference < d
                          /\ Forall (Fit.below ToNumber size d) before)).
    { intros x Hf0 <-.
      destruct (IH bestFit bestFitDifference Hle Hno' Hunder')
        as (b & d & -> & Hrange & Hall & Hcase).
      exists b, d. split; [reflexivity|]. split; [exact Hrange|].
      assert (Hfd : Fit.at_most ToNumber size d f).
      { unfold Fit.at_most.
        destruct (difference_of ToNumber (width_of f) size); [lia | exact I]. }
      split; [now constructor|].
      destruct Hcase as [Hsame | (before & file & after & -> & Hb & Hdiff & Hlt & Hbefore)];
        [now left|].
      right. exists (f :: before), file, after. repeat split; auto.
      constructor; [|exact Hbefore]. unfold Fit.below.
      destruct (difference_of ToNumber (width_of f) size); [lia | exact I]. }
    destruct (difference_of ToNumber (width_of f) size) as [d0|] eqn:Hd0;
      [|now apply Hkeep].
    destruct ((bestFitDifference <? d0) && (bestFitDifference <=? 0)) eqn:Hreplace.
    + apply andb_prop in Hreplace. destruct Hreplace as [Hlt _]. apply Z.ltb_lt in Hlt.
      destruct (IH (Some f) d0 Hd Hno' Hunder') as (b & d & -> & Hrange & Hall & Hcase).
      exists b, d. split; [reflexivity|]. split; [lia|].
      split.
      { constructor; [|exact Hall]. unfold Fit.at_most. rewrite Hd0. lia. }
      right.
      destruct Hcase as [[-> ->] | (before & file & after & -> & Hb & Hdiff & Hlt' & Hbefore)].
      * exists [], f, files. repeat split; auto.
      * exists (f :: before), file, after. repeat split; auto; [lia|].
        constructor; [|exact Hbefore]. unfold Fit.below. rewrite Hd0. lia.
    + apply Hkeep; [|reflexivity].
      apply andb_false_iff in Hreplace. destruct Hreplace as [H|H].
      * apply Z.ltb_ge in H. exact H.
      * apply Z.leb_gt in H. lia.
Qed.

Lemma best_unusable (files : list string) :
  Listing.no_perfect ToNumber size files ->
  Forall (Fit.at_most ToNumber size (-100000)) files ->
  best ToNumber size files None (-100000) = Closest None (-100000).
Proof.
  intros Hno. induction Hno as [|f files Hf _ IH]; intros Hall; [reflexivity|].
  inversion Hall as [|? ? Hd Hall']; subst.
  rewrite (best_step ToNumber size f files _ _ Hf). unfold Fit.at_most in Hd.
  destruct (difference_of ToNumber (width_of f) size) as [d|]; [|now apply IH].
  replace (-100000 <? d) with false by (symmetry; apply Z.ltb_ge; exact Hd).
  now apply IH.
Qed.

End Chosen.

Lemma find_first {A : Type} (p : A -> bool) (l : list A) :
  match find p l with
  | Some x =>
      exists before after,
        l = (before ++ x :: after)%list /\ p x = true
        /\ Forall (fun y => p y = false) before
  | None => Forall (fun y => p y = false) l
  end.
Proof.
  induction l as [|y l IH]; simpl; [constructor|].
  destruct (p y) eqn:Hy.
  - exists [], l. repeat split; [exact Hy | constructor].
  - destruct (find p l) as [x|].
    + destruct IH as (before & after & -> & Hx & Hbefore).
      exists (y :: before), after. repeat split; [exact Hx | now constructor].
    + now constructor.
Qed.

Lemma find_after {A : Type} (p : A -> bool) (before after : list A) (x : A) :
  Forall (fun y => p y = false) before -> p x = true ->
  find p (before ++ x :: after) = Some x.
Proof.
  intros Hbefore Hx. induction Hbefore as [|y before Hy _ IH]; simpl.
  - now rewrite Hx.
  - now rewrite Hy.
Qed.

Section Selected.

Variable ToNumber : string -> option Z.
Variable size : requested.

(** A file whose width gives a difference has a name. *)
Lemma difference_named (file : string) (d : Z) :
  difference_of ToNumber (width_of file) size = Some d -> truthy (Some file) = true.
Proof. destruct file; [discriminate | reflexivity]. Qed.

(** A best that no later difference exceeds is kept. *)
Lemma best_kept (files : list string) (bestFit : option string) (d : Z) :
  Listing.no_perfect ToNumber size files ->
  Forall (Fit.at_most ToNumber size d) files ->
  best ToNumber size files bestFit d = Closest bestFit d.
Proof.
  intros Hno. induction Hno as [|f files Hf _ IH]; intros Hall; [reflexivity|].
  inversion Hall as [|? ? Hd Hall']; subst.
  rewrite (best_step ToNumber size f files _ _ Hf). unfold Fit.at_most in Hd.
  destruct (difference_of ToNumber (width_of f) size) as [x|]; [|now apply IH].
  replace (d <? x) with false by (symmetry; apply Z.ltb_ge; exact Hd).
  now apply IH.
Qed.

Lemma best_below (d : Z) (before : list string) :
  d <= 0 ->
  Listing.no_perfect ToNumber size before ->
  Forall (Fit.below ToNumber size d) before ->
  forall (bestFit : option string) (bestFitDifference : Z),
    bestFitDifference < d ->
    exists bestFit' d',
      d' < d
      /\ forall rest,
           best ToNumber size (before ++ rest) bestFit bestFitDifference
           = best ToNumber size rest bestFit' d'.
Proof.
  intros Hd Hno. induction Hno as [|f before Hf _ IH]; intros Hbelow bestFit bd Hlt.
  - exists bestFit, bd. split; [exact Hlt | reflexivity].
  - inversion Hbelow as [|? ? Hx Hbelow']; subst. unfold Fit.below in Hx.
    destruct (difference_of ToNumber (width_of f) size) as [x|] eqn:Hdiff.
    + destruct ((bd <? x) && (bd <=? 0)) eqn:Hreplace.
      * destruct (IH Hbelow' (Some f) x Hx) as (b & d' & Hd' & Hrest).
        exists b, d'. split; [exact Hd'|]. intros rest.
        rewrite <- app_comm_cons, (best_step ToNumber size f _ _ _ Hf), Hdiff, Hreplace.
        apply Hrest.
      * destruct (IH Hbelow' bestFit bd Hlt) as (b & d' & Hd' & Hrest).
        exists b, d'. split; [exact Hd'|]. intros rest.
        rewrite <- app_comm_cons, (best_step ToNumber size f _ _ _ Hf), Hdiff, Hreplace.
        apply Hrest.
    + destruct (IH Hbelow' bestFit bd Hlt) as (b & d' & Hd' & Hrest).
      exists b, d'. split; [exact Hd'|]. intros rest.
      rewrite <- app_comm_cons, (best_step ToNumber size f _ _ _ Hf), Hdiff.
      apply Hrest.
Qed.

(** Without a perfect fit and without an oversized file, the first file
    that has the largest difference is the one chosen. *)
Lemma best_first_largest (before after : list string) (file : string) (d : Z) :
  Listing.no_perfect ToNumber size (before ++ file :: after) ->
  Forall (Fit.below ToNumber size d) before ->
  difference_of ToNumber (width_of file) size = Some d ->
  -100000 < d <= 0 ->
  Forall (Fit.at_most ToNumber size d) after ->
  best ToNumber size (before ++ file :: after) None (-100000) = Closest (Some file) d.
Proof.
  intros Hno Hbefore Hd Hrange Hafter.
  apply Forall_app in Hno. destruct Hno as [Hnob Hrest].
  inversion Hrest as [|? ? Hfile Hnoa]; subst.
  destruct (best_below d before) with (bestFit := @None string) (bestFitDifference := -100000)
    as (b & d' & Hd' & ->); [lia | assumption | assumption | lia |].
  rewrite (best_step ToNumber size file after _ _ Hfile), Hd.
  replace (d' <? d) with true by (symmetry; apply Z.ltb_lt; lia).
  replace (d' <=? 0) with true by (symmetry; apply Z.leb_le; lia).
  simpl. now apply best_kept.
Qed.

Lemma largest_is (files : list string) :
  forall floor m,
    floor <= m ->
    Forall (Fit.at_most ToNumber size m) files ->
    m = floor
    \/ Exists (fun file => difference_of ToNumber (width_of file) size = Some m) files ->
    Choice.largest ToNumber size files floor = m.
Proof.
  induction files as [|f files IH]; intros floor m Hle Hall Hm; simpl.
  - destruct Hm as [->|Hex]; [reflexivity | inversion Hex].
  - inversion Hall as [|? ? Hf Hall']; subst. unfold Fit.at_most in Hf.
    destruct (difference_of ToNumber (width_of f) size) as [x|] eqn:Hdiff.
    + apply IH; [lia | exact Hall'|].
      destruct Hm as [->|Hex]; [left; lia|].
      inversion Hex as [? ? Hhead|? ? Htail]; subst.
      * rewrite Hdiff in Hhead. injection Hhead as ->. left. lia.
      * now right.
    + apply IH; [exact Hle | exact Hall'|].
      destruct Hm as [->|Hex]; [now left|].
      inversion Hex as [? ? Hhead|? ? Htail]; subst; [congruence | now right].
Qed.

(** What [getBestFromCache] does with a listing is what the selection
    stated from the listing gives. *)
Lemma getBestFromCache_lookup (foldername : string) (cb : list action)
    (files : list string) :
  getBestFromCache ToNumber foldername size cb (Some files)
  = Choice.lookup ToNumber size foldername files.
Proof.
  unfold getBestFromCache, Choice.lookup, Choice.choice.
  pose proof (find_first (Choice.perfect ToNumber size) files) as Hperfect.
  destruct (find (Choice.perfect ToNumber size) files) as [file|].
  { destruct Hperfect as (before & after & -> & Hfile & Hbefore).
    now rewrite (best_perfect ToNumber size before after file None (-100000) Hbefore Hfile). }
  pose proof (find_first (Choice.oversized ToNumber size) files) as Hover.
  destruct (find (Choice.oversized ToNumber size) files) as [file|].
  { destruct Hover as (before & after & -> & Hfile & Hbefore).
    unfold Choice.oversized in Hfile.
    destruct (difference_of ToNumber (width_of file) size) as [d|] eqn:Hd; [|discriminate].
    apply Z.ltb_lt in Hfile.
    rewrite (best_first_oversized ToNumber size before after file d Hperfect); auto.
    - now rewrite (difference_named file d Hd).
    - eapply Forall_impl; [|exact Hbefore]. intros f Hf.
      unfold Choice.oversized in Hf. unfold Listing.not_oversized.
      destruct (difference_of ToNumber (width_of f) size); [|exact I].
      apply Z.ltb_ge in Hf. exact Hf. }
  assert (Hunder : Forall (Fit.at_most ToNumber size 0) files).
  { eapply Forall_impl; [|exact Hover]. intros f Hf.
    unfold Choice.oversized in Hf. unfold Fit.at_most.
    destruct (difference_of ToNumber (width_of f) size); [|exact I].
    apply Z.ltb_ge in Hf. exact Hf. }
  destruct (best_largest ToNumber size files None (-100000))
    as (b & d & Hbest & Hrange & Hall & Hcase); [lia | assumption | assumption |].
  rewrite Hbest. cbn zeta.
  destruct Hcase as [[-> ->] | (before & file & after & -> & -> & Hd & Hlt & Hbefore)].
  - rewrite (largest_is files (-100000) (-100000)); [reflexivity | lia | exact Hall | now left].
  - rewrite (largest_is (before ++ file :: after) (-100000) d);
      [| lia | exact Hall | right; apply Exists_app; right; now left].
    replace (d =? -100000) with false by (symmetry; apply Z.eqb_neq; lia).
    rewrite (find_after (Choice.differs_by ToNumber size d) before after file).
    + now rewrite (difference_named file d Hd).
    + eapply Forall_impl; [|exact Hbefore]. intros f Hf.
      unfold Fit.below in Hf. unfold Choice.differs_by.
      destruct (difference_of ToNumber (width_of f) size); [|reflexivity].
      apply Z.eqb_neq. lia.
    + unfold Choice.differs_by. rewrite Hd. apply Z.eqb_refl.
Qed.

End Selected.

(** C3, as the code has it.  The loop returns at the first file whose
    width equals the requested size.  Failing that, a file replaces the
    best only if its difference is strictly greater than the best's and
    the best's difference is not positive: an oversized best is never
    replaced, so the first oversized file of the listing is chosen;
    without an oversized file the first file that has the largest
    difference is chosen, when that is above the start value -100000.
    So for every listing the lookup loads the first perfect fit, else the
    first oversized file, else the first file of the largest difference,
    and sends the empty answer when there is none.  For the size 16 the
    listing with the widths 32 and 48 gives the file of width 32, and the
    same files listed in the other order give the file of width 48. *)
Theorem best_fit_rule (ToNumber : string -> option Z) (size : requested) :
  (forall before file after bestFit bestFitDifference,
      Listing.no_perfect ToNumber size before ->
      loose_eq ToNumber size (width_of file) = true ->
      best ToNumber size (before ++ file :: after) bestFit bestFitDifference
      = Perfect file)
  /\ (forall file rest bestFit bestFitDifference,
        loose_eq ToNumber size (width_of file) = false ->
        best ToNumber size (file :: rest) bestFit bestFitDifference
        = match difference_of ToNumber (width_of file) size with
          | Some d =>
              if (bestFitDifference <? d) && (bestFitDifference <=? 0)
              then best ToNumber size rest (Some file) d
              else best ToNumber size rest bestFit bestFitDifference
          | None => best ToNumber size rest bestFit bestFitDifference
          end)
  /\ (forall files bestFit bestFitDifference,
        0 < bestFitDifference -> Listing.no_perfect ToNumber size files ->
        best ToNumber size files bestFit bestFitDifference
        = Closest bestFit bestFitDifference)
  /\ (forall before file after d,
        Listing.no_perfect ToNumber size (before ++ file :: after) ->
        Forall (Listing.not_oversized ToNumber size) before ->
        difference_of ToNumber (width_of file) size = Some d -> 0 < d ->
        best ToNumber size (before ++ file :: after) None (-100000)
        = Closest (Some file) d)
  /\ (forall before file after d,
        Listing.no_perfect ToNumber size (before ++ file :: after) ->
        Forall (Fit.below ToNumber size d) before ->
        difference_of ToNumber (width_of file) size = Some d ->
        -100000 < d <= 0 ->
        Forall (Fit.at_most ToNumber size d) after ->
        best ToNumber size (before ++ file :: after) None (-100000)
        = Closest (Some file) d)
  /\ (forall files,
        Listing.no_perfect ToNumber size files ->
        Forall (Fit.at_most ToNumber size (-100000)) files ->
        best ToNumber size files None (-100000) = Closest None (-100000))
  /\ (forall foldername cb files,
        getBestFromCache ToNumber foldername size cb (Some files)
        = Choice.lookup ToNumber size foldername files)
  /\ best decimal (Number 16) Scenario.listing None (-100000)
     = Closest (Some "0.32.png") 16
  /\ best decimal (Number 16) (rev Scenario.listing) None (-100000)
     = Closest (Some "0.48.png") 32
  /\ getBestFromCache decimal "favicons/example.com/" (Number 16) []
       (Some Scenario.listing)
     = [LoadIcon "favicons/example.com/0.32.png"].
Proof.
  split; [|split; [|split; [|split; [|split; [|split; [|split; [|repeat split]]]]]]].
  - intros. now apply best_perfect.
  - intros. now apply best_step.
  - intros. now apply best_frozen.
  - intros. now apply best_first_oversized.
  - intros. now apply best_first_largest.
  - intros. now apply best_unusable.
  - intros. apply getBestFromCache_lookup.
Qed.

(** A listing with an undersized, an oversized and a perfect file, the
    listing of widths 32 and 48 after an undersized file, and a listing
    of undersized files only, through [best_fit_rule]. *)
Lemma best_fit_rule_witness :
  best decimal (Number 16) ["0.8.png"; "0.32.png"; "0.16.png"] None (-100000)
  = Perfect "0.16.png"
  /\ best decimal (Number 16) ["0.48.png"] (Some "0.32.png") 16
     = Closest (Some "0.32.png") 16
  /\ best decimal (Number 16) ["0.8.png"; "0.32.png"; "0.48.png"] None (-100000)
     = Closest (Some "0.32.png") 16
  /\ best decimal (Number 16) ["0.8.png"; "1.12.png"; "2.12.png"] None (-100000)
     = Closest (Some "1.12.png") (-4)
  /\ getBestFromCache decimal "favicons/example.com/" (Number 16) []
       (Some ["0.8.png"; "1.12.png"; "2.12.png"])
     = [LoadIcon "favicons/example.com/1.12.png"].
Proof.
  pose proof (best_fit_rule decimal (Number 16))
    as (Hperfect & _ & Hfrozen & Hfirst & Hlargest & _ & Hlookup & _).
  split; [|split; [|split; [|split]]].
  - apply (Hperfect ["0.8.png"; "0.32.png"] "0.16.png" []).
    + repeat constructor.
    + reflexivity.
  - apply (Hfrozen ["0.48.png"]); [lia | repeat constructor].
  - apply (Hfirst ["0.8.png"] "0.32.png" ["0.48.png"] 16).
    + repeat constructor.
    + repeat constructor. unfold Listing.not_oversized. simpl. lia.
    + reflexivity.
    + lia.
  - apply (Hlargest ["0.8.png"] "1.12.png" ["2.12.png"] (-4)).
    + repeat constructor.
    + apply Forall_cons; [unfold Fit.below; simpl; lia | apply Forall_nil].
    + reflexivity.
    + lia.
    + apply Forall_cons; [unfold Fit.at_most; simpl; lia | apply Forall_nil].
  - rewrite (Hlookup "favicons/example.com/" [] ["0.8.png"; "1.12.png"; "2.12.png"]).
    reflexivity.
Defined.

(** C3 as stated fails: with the best at width 32, which is oversized for
    the size 16, the file of width 48 has the larger difference and is
    not preferred; the rule as worded chooses 48, the code 32. *)
Lemma best_fit_keeps_first_oversized :
  Scenario.widths Scenario.listing = [32; 48]
  /\ Scenario.chosen (best decimal (Number 16) Scenario.listing None (-100000)) = Some 32
  /\ spec_best 16 (Scenario.widths Scenario.listing) None = Some 48.
Proof. repeat split. Qed.

(** C8.  When [expires] is given and the modification time of the
    directory is before it, [serveFromCache] does what the continuation
    does and nothing else, whatever the directory lists and whatever size
    is requested. *)
Theorem stale_directory_misses (ToNumber : string -> option Z) (foldername : string)
    (size : requested) (expires mtime : Z) (cb : list action) (d : directory) :
  expires <> 0 -> stat d = Some mtime -> mtime < expires ->
  serveFromCache ToNumber foldername size (Some expires) cb d = cb.
Proof.
  intros Hexpires Hstat Hstale. unfold serveFromCache.
  apply Z.eqb_neq in Hexpires. rewrite Hexpires, Hstat.
  apply Z.ltb_lt in Hstale. rewrite Hstale. reflexivity.
Qed.

(** A directory with a perfect fit, last modified four days before the
    request. *)
Lemma stale_directory_misses_witness :
  serveFromCache decimal "favicons/example.com/" (Number 16)
    (Some (1700000000000 - Handler.CACHE_TTL))
    (Handler.retrieveAllFavicons "http://example.com")
    (mkDirectory (Some (1700000000000 - 4 * 24 * 60 * 60 * 1000)) (Some ["0.16.png"]))
  = Handler.retrieveAllFavicons "http://example.com".
Proof.
  apply (stale_directory_misses decimal "favicons/example.com/" (Number 16)
           (1700000000000 - Handler.CACHE_TTL)
           (1700000000000 - 4 * 24 * 60 * 60 * 1000)).
  - discriminate.
  - reflexivity.
  - reflexivity.
Defined.

(** ** The request handler *)

Import Handler.

Lemma getBestFromCache_answers (ToNumber : string -> option Z) (foldername : string)
    (size : requested) (cb : list action) (files : list string) :
  forallb answers (getBestFromCache ToNumber foldername size cb (Some files)) = true.
Proof.
  unfold getBestFromCache.
  destruct (best ToNumber size files None (-100000)) as [file|bestFit d]; [reflexivity|].
  destruct (negb (truthy bestFit)); reflexivity.
Qed.

(** A request whose cache directory is stale does what
    [retrieveAllFavicons] does. *)
Lemma stale_request_resolves (ToNumber : string -> option Z)
    (url_parse : string -> urlObj) (dirname : string) (req : request) (now : Z)
    (disk : string -> option directory) (d : directory) (mtime : Z) :
  String.eqb (pathname1 req) "favicon.ico" = false ->
  disk (cacheDir_of url_parse dirname req) = Some d ->
  stat d = Some mtime -> mtime < now - CACHE_TTL -> now - CACHE_TTL <> 0 ->
  handler ToNumber url_parse dirname req now disk
  = retrieveAllFavicons
      (protocol (rootObj_of url_parse req) ++ "//" ++ host (rootObj_of url_parse req)).
Proof.
  intros Hpath Hdisk Hstat Hstale Hexpires. unfold handler.
  rewrite Hpath. cbn zeta. rewrite Hdisk. unfold serveFromCache.
  apply Z.eqb_neq in Hexpires. rewrite Hexpires, Hstat.
  apply Z.ltb_lt in Hstale. rewrite Hstale. reflexivity.
Qed.

(** C9.  When the cache directory of the host exists, was modified no
    earlier than [CACHE_TTL] before the request and can be listed, the
    handler only answers the request: it issues no fetch of a candidate or
    of the HTML, saves and converts nothing, and does not run
    [retrieveAllFavicons], whose callbacks alone lead to a conversion. *)
Theorem fresh_hit_fetches_nothing (ToNumber : string -> option Z)
    (url_parse : string -> urlObj) (dirname : string) (req : request) (now : Z)
    (disk : string -> option directory) (d : directory) (mtime : Z)
    (files : list string) :
  disk (cacheDir_of url_parse dirname req) = Some d ->
  stat d = Some mtime -> now - CACHE_TTL <= mtime -> readdir d = Some files ->
  forallb answers (handler ToNumber url_parse dirname req now disk) = true
  /\ (forall a, In a (handler ToNumber url_parse dirname req now disk) ->
        a = SendEmpty \/ exists file, a = LoadIcon file).
Proof.
  intros Hdisk Hstat Hfresh Hreaddir.
  assert (Hall : forallb answers (handler ToNumber url_parse dirname req now disk) = true).
  { unfold handler. destruct (String.eqb (pathname1 req) "favicon.ico"); [reflexivity|].
    cbn zeta. rewrite Hdisk. unfold serveFromCache. rewrite Hstat, Hreaddir.
    replace (mtime <? now - CACHE_TTL) with false by (symmetry; apply Z.ltb_ge; lia).
    destruct (now - CACHE_TTL =? 0); apply getBestFromCache_answers. }
  split; [exact Hall|].
  intros a Ha. rewrite forallb_forall in Hall. specialize (Hall a Ha).
  assert (Hnot : a <> ResponseEnd).
  { intros ->. revert Ha. unfold handler.
    destruct (String.eqb (pathname1 req) "favicon.ico");
      [intros [H|[]]; discriminate|].
    cbn zeta. rewrite Hdisk. unfold serveFromCache. rewrite Hstat, Hreaddir.
    replace (mtime <? now - CACHE_TTL) with false by (symmetry; apply Z.ltb_ge; lia).
    assert (Hbest : ~ In ResponseEnd
                      (getBestFromCache ToNumber (cacheDir_of url_parse dirname req)
                         (size_of req)
                         (retrieveAllFavicons
                            (protocol (rootObj_of url_parse req) ++ "//"
                               ++ host (rootObj_of url_parse req)))
                         (Some files))).
    { unfold getBestFromCache.
      destruct (best ToNumber (size_of req) files None (-100000)) as [file|bestFit bd].
      - intros [H|[]]; discriminate.
      - destruct (negb (truthy bestFit)); simpl; intros H;
          repeat (destruct H as [H|H]; try discriminate); exact H. }
    destruct (now - CACHE_TTL =? 0); exact Hbest. }
  destruct a; try discriminate; [now elim Hnot | now left | right; eauto].
Qed.

(** A request for [example.com] one hour after the icons of widths 16 and
    32 were cached. *)
Lemma fresh_hit_fetches_nothing_witness :
  forallb answers
    (handler decimal Scenario.parse_example "/srv" (mkRequest "example.com" None)
       1700000000000
       (Scenario.disk_with
          (mkDirectory (Some (1700000000000 - 3600000)) (Some ["0.32.png"; "0.16.png"]))))
  = true.
Proof.
  apply (fresh_hit_fetches_nothing decimal Scenario.parse_example "/srv"
           (mkRequest "example.com" None) 1700000000000
           (Scenario.disk_with
              (mkDirectory (Some (1700000000000 - 3600000))
                 (Some ["0.32.png"; "0.16.png"])))
           (mkDirectory (Some (1700000000000 - 3600000)) (Some ["0.32.png"; "0.16.png"]))
           (1700000000000 - 3600000) ["0.32.png"; "0.16.png"]).
  - reflexivity.
  - reflexivity.
  - unfold CACHE_TTL. lia.
  - reflexivity.
Defined.

(** * Further properties *)

(** ** The join *)

(** One root icon arrives before the HTML, which names one icon; the
    other three callbacks follow. *)
Lemma html_icons_complete_once_witness :
  completions
    (snd (run "http://example.com" "http:" initial
            ([RootFavicon Scenario.icon_a]
               ++ Html (Some Page.one_icon)
               :: [RootFavicon Scenario.no_icon; HtmlFavicon Page.icon_c;
                   RootFavicon Scenario.icon_b])))
  = 1%nat.
Proof.
  apply (html_icons_complete_once "http://example.com" "http:" (Some Page.one_icon)
           [RootFavicon Scenario.icon_a]
           [RootFavicon Scenario.no_icon; HtmlFavicon Page.icon_c;
            RootFavicon Scenario.icon_b]).
  - reflexivity.
  - reflexivity.
  - discriminate.
  - reflexivity.
  - simpl. lia.
Defined.

(** The HTML fetch fails between the first and the second root callback. *)
Lemma html_without_icons_overcounts_witness :
  returned
    (fst (run "http://example.com" "http:" initial
            ([RootFavicon Scenario.icon_a]
               ++ Html None
               :: [RootFavicon Scenario.no_icon; RootFavicon Scenario.icon_b])))
  = 4.
Proof.
  apply (html_without_icons_overcounts "http://example.com" "http:" None
           [RootFavicon Scenario.icon_a]
           [RootFavicon Scenario.no_icon; RootFavicon Scenario.icon_b]).
  - reflexivity.
  - reflexivity.
  - reflexivity.
  - reflexivity.
Defined.

(** X3.  Until the HTML callback has arrived the completion block does not
    run, however many candidate callbacks arrive. *)
Theorem waits_for_html (root protocol : string) (es : list event) :
  forallb is_fetch es = true ->
  completions (snd (run root protocol initial es)) = O
  /\ htmlLoaded (fst (run root protocol initial es)) = false
  /\ returned (fst (run root protocol initial es)) = Z.of_nat (List.length es).
Proof.
  intros Hes.
  destruct (run_before_html root protocol es initial Hes eq_refl) as (Hr & _ & Hh & Hc).
  repeat split; [exact Hc | exact Hh | rewrite Hr; reflexivity].
Qed.

(** Five candidate callbacks and no HTML callback. *)
Lemma waits_for_html_witness :
  completions
    (snd (run "http://example.com" "http:" initial
            [RootFavicon Scenario.icon_a; RootFavicon Scenario.no_icon;
             RootFavicon Scenario.icon_b; HtmlFavicon Page.icon_c;
             HtmlFavicon Scenario.icon_a_again]))
  = O.
Proof.
  apply (waits_for_html "http://example.com" "http:"
           [RootFavicon Scenario.icon_a; RootFavicon Scenario.no_icon;
            RootFavicon Scenario.icon_b; HtmlFavicon Page.icon_c;
            HtmlFavicon Scenario.icon_a_again]).
  reflexivity.
Defined.

Lemma fetched_stored (o : faviconObj) (s : job) :
  converted (fst (fetched o s)) = converted s
  /\ stored (fst (fetched o s)) - Z.of_nat (List.length (favicons (fst (fetched o s))))
     = stored s - Z.of_nat (List.length (favicons s))
  /\ stored s <= stored (fst (fetched o s)) <= stored s + 1.
Proof.
  unfold fetched, done. destruct (data o); simpl;
    [destruct (skip o (favicons s)); simpl|];
    destruct (complete _); simpl; rewrite ?length_app; simpl; repeat split; lia.
Qed.

Lemma step_counters (root protocol : string) (s : job) (e : event) :
  returned (fst (step root protocol s e))
  = returned s + Counting.arrivals root protocol [e]
  /\ expected (fst (step root protocol s e))
     = expected s + Counting.found_in_html root protocol [e]
  /\ converted (fst (step root protocol s e)) = converted s
  /\ stored (fst (step root protocol s e))
     - Z.of_nat (List.length (favicons (fst (step root protocol s e))))
     = stored s - Z.of_nat (List.length (favicons s))
  /\ stored s <= stored (fst (step root protocol s e))
     <= stored s + Counting.arrivals root protocol [e].
Proof.
  assert (Hfetch : forall o,
             returned (fst (fetched o s)) = returned s + 1
             /\ expected (fst (fetched o s)) = expected s + 0
             /\ converted (fst (fetched o s)) = converted s
             /\ stored (fst (fetched o s))
                - Z.of_nat (List.length (favicons (fst (fetched o s))))
                = stored s - Z.of_nat (List.length (favicons s))
             /\ stored s <= stored (fst (fetched o s)) <= stored s + 1).
  { intros o. destruct (fetched_counters o s) as (Hr & Hx & _).
    destruct (fetched_stored o s) as (Hc & Hl & Hs). repeat split; lia. }
  destruct e as [o|html|o].
  - simpl. specialize (Hfetch o). destruct (fetched o s). exact Hfetch.
  - unfold step, Counting.arrivals, Counting.found_in_html, html_icons, html_loaded.
    assert (Hdone : forall c, c = done None (set_htmlLoaded s) ->
               returned (fst c) = returned s + 1
               /\ expected (fst c) = expected s
               /\ converted (fst c) = converted s
               /\ stored (fst c) = stored s
               /\ favicons (fst c) = favicons s).
    { intros c ->. unfold done. simpl. destruct (complete _); repeat split. }
    destruct html as [h|].
    + destruct (truthy (Some (Resolver.html_text h))).
      * destruct (Resolver.parseFaviconURL h root protocol) as [|c cs].
        -- destruct (Hdone _ eq_refl) as (Hr & Hx & Hc & Hs & Hf).
           destruct (done None (set_htmlLoaded s)) as [s' c']. simpl in *.
           rewrite Hr, Hx, Hc, Hs, Hf. repeat split; lia.
        -- simpl. repeat split; lia.
      * destruct (Hdone _ eq_refl) as (Hr & Hx & Hc & Hs & Hf).
        destruct (done None (set_htmlLoaded s)) as [s' c']. simpl in *.
        rewrite Hr, Hx, Hc, Hs, Hf. repeat split; lia.
    + destruct (Hdone _ eq_refl) as (Hr & Hx & Hc & Hs & Hf).
      destruct (done None (set_htmlLoaded s)) as [s' c']. simpl in *.
      rewrite Hr, Hx, Hc, Hs, Hf. repeat split; lia.
  - simpl. specialize (Hfetch o). destruct (fetched o s). exact Hfetch.
Qed.

Lemma arrivals_cons (root protocol : string) (e : event) (es : list event) :
  Counting.arrivals root protocol (e :: es)
  = Counting.arrivals root protocol [e] + Counting.arrivals root protocol es
  /\ Counting.found_in_html root protocol (e :: es)
     = Counting.found_in_html root protocol [e] + Counting.found_in_html root protocol es.
Proof. destruct e; simpl; split; lia. Qed.

Lemma run_counters_from (root protocol : string) (es : list event) (s : job) :
  returned (fst (run root protocol s es)) = returned s + Counting.arrivals root protocol es
  /\ expected (fst (run root protocol s es))
     = expected s + Counting.found_in_html root protocol es
  /\ converted (fst (run root protocol s es)) = converted s
  /\ stored (fst (run root protocol s es))
     - Z.of_nat (List.length (favicons (fst (run root protocol s es))))
     = stored s - Z.of_nat (List.length (favicons s))
  /\ stored s <= stored (fst (run root protocol s es))
     <= stored s + Counting.arrivals root protocol es.
Proof.
  revert s. induction es as [|e es IH]; intros s.
  - simpl. repeat split; lia.
  - rewrite run_cons.
    destruct (IH (fst (step root protocol s e))) as (Hr & Hx & Hc & Hl & Hs).
    destruct (step_counters root protocol s e) as (Hr1 & Hx1 & Hc1 & Hl1 & Hs1).
    destruct (arrivals_cons root protocol e es) as [-> ->].
    repeat split; lia.
Qed.

(** X4.  After any callbacks, [returned] is the number of candidate
    callbacks plus the HTML callbacks that found no icon, [expected] is 3
    plus the number of icons found in the HTML, [stored] is the number of
    stored favicons and at most [returned], and no conversion has been
    counted. *)
Theorem run_counters (root protocol : string) (es : list event) :
  returned (fst (run root protocol initial es)) = Counting.arrivals root protocol es
  /\ expected (fst (run root protocol initial es))
     = 3 + Counting.found_in_html root protocol es
  /\ stored (fst (run root protocol initial es))
     = Z.of_nat (List.length (favicons (fst (run root protocol initial es))))
  /\ stored (fst (run root protocol initial es))
     <= returned (fst (run root protocol initial es))
  /\ converted (fst (run root protocol initial es)) = 0.
Proof.
  destruct (run_counters_from root protocol es initial) as (Hr & Hx & Hc & Hl & Hs).
  change (returned initial) with 0 in *. change (expected initial) with 3 in *.
  change (stored initial) with 0 in *. change (converted initial) with 0 in *.
  change (favicons initial) with (@nil faviconObj) in *. simpl List.length in *.
  repeat split; lia.
Qed.

Lemma run_snd_cons (root protocol : string) (s : job) (e : event) (es : list event) :
  snd (run root protocol s (e :: es))
  = snd (step root protocol s e) :: snd (run root protocol (fst (step root protocol s e)) es).
Proof.
  simpl. destruct (step root protocol s e) as [s' x]. simpl.
  destruct (run root protocol s' es). reflexivity.
Qed.

Lemma run_without_payload (root protocol : string) (es : list event) (s : job) :
  arrived es = [] -> favicons s = [] -> stored s = 0 ->
  favicons (fst (run root protocol s es)) = []
  /\ Forall (fun x => completed x = None \/ completed x = Some [ResponseEnd])
       (snd (run root protocol s es)).
Proof.
  revert s. induction es as [|e es IH]; intros s Hes Hf Hs.
  - split; [exact Hf | constructor].
  - assert (Hdone : forall s0, favicons s0 = [] -> stored s0 = 0 ->
               favicons (fst (done None s0)) = [] /\ stored (fst (done None s0)) = 0
               /\ (snd (done None s0) = None \/ snd (done None s0) = Some [ResponseEnd])).
    { intros s0 Hf0 Hs0. unfold done. simpl. destruct (complete _); simpl.
      - repeat split; try assumption. right. unfold completion. simpl.
        rewrite Hs0, Hf0. reflexivity.
      - repeat split; try assumption. now left. }
    assert (Hstep : arrived es = []
                    /\ favicons (fst (step root protocol s e)) = []
                    /\ stored (fst (step root protocol s e)) = 0
                    /\ (completed (snd (step root protocol s e)) = None
                        \/ completed (snd (step root protocol s e)) = Some [ResponseEnd])).
    { destruct e as [o|html|o]; simpl in Hes |- *.
      - destruct (data o) eqn:Ho; [discriminate|]. unfold fetched. rewrite Ho.
        destruct (Hdone s Hf Hs) as (H1 & H2 & H3).
        destruct (done None s). simpl in *. tauto.
      - unfold html_loaded.
        assert (Hs' : favicons (set_htmlLoaded s) = [] /\ stored (set_htmlLoaded s) = 0)
          by (split; assumption).
        destruct Hs' as [Hf' Hs'].
        destruct (Hdone _ Hf' Hs') as (H1 & H2 & H3).
        destruct html as [h|].
        + destruct (truthy _).
          * destruct (0 <? _).
            -- simpl. repeat split; try assumption. now left.
            -- destruct (done None (set_htmlLoaded s)). simpl in *. tauto.
          * destruct (done None (set_htmlLoaded s)). simpl in *. tauto.
        + destruct (done None (set_htmlLoaded s)). simpl in *. tauto.
      - destruct (data o) eqn:Ho; [discriminate|]. unfold fetched. rewrite Ho.
        destruct (Hdone s Hf Hs) as (H1 & H2 & H3).
        destruct (done None s). simpl in *. tauto. }
    destruct Hstep as (Hes' & Hf' & Hs' & Hc).
    rewrite run_cons, run_snd_cons.
    destruct (IH _ Hes' Hf' Hs') as [Hfin Hall].
    split; [exact Hfin | constructor; assumption].
Qed.

(** X5.  When no fetch brings a payload, nothing is stored and every run
    of the completion block only ends the response: nothing is saved or
    converted. *)
Theorem no_payload_ends_response (root protocol : string) (es : list event) :
  arrived es = [] ->
  favicons (fst (run root protocol initial es)) = []
  /\ Forall (fun x => completed x = None \/ completed x = Some [ResponseEnd])
       (snd (run root protocol initial es)).
Proof.
  intros Hes. now apply run_without_payload.
Qed.

(** The three root fetches find nothing and the HTML fetch fails. *)
Lemma no_payload_ends_response_witness :
  favicons
    (fst (run "http://example.com" "http:" initial
            [RootFavicon Scenario.no_icon; RootFavicon Scenario.root_icon;
             RootFavicon Scenario.no_icon; Html None]))
  = [].
Proof.
  apply (no_payload_ends_response "http://example.com" "http:"
           [RootFavicon Scenario.no_icon; RootFavicon Scenario.root_icon;
            RootFavicon Scenario.no_icon; Html None]).
  reflexivity.
Defined.

(** ** Saving and converting *)

Import Pipeline.

(** X6.  In [server.js], when the conversions of all [stored] favicons
    report back, failed or not, the cache is read again exactly once, by
    the last report and by none before it. *)
Theorem conversions_join_once (foldername : string) (errs : list bool) (s : job) :
  converted s = 0 -> stored s = Z.of_nat (List.length errs) -> errs <> [] ->
  snd (join (converted_one foldername) errs s) = [ServeFromCache foldername]
  /\ snd (join (converted_one foldername) (removelast errs) s) = []
  /\ converted (fst (join (converted_one foldername) errs s)) = stored s.
Proof.
  intros Hc Hs Hne.
  assert (Hlen : (List.length (removelast errs) = List.length errs - 1)%nat).
  { clear. induction errs as [|e [|e' errs'] IH]; [reflexivity | reflexivity |].
    change (removelast (e :: e' :: errs')) with (e :: removelast (e' :: errs')).
    simpl List.length in *. lia. }
  assert (Hpos : (0 < List.length errs)%nat) by (destruct errs; [now elim Hne | simpl; lia]).
  destruct (join_converted_one foldername errs s) as (Hc1 & _ & Ha1); [lia|].
  destruct (join_converted_one foldername (removelast errs) s) as (_ & _ & Ha2); [lia|].
  rewrite Ha1, Ha2, Hc1, Hc, Hs.
  replace (0 + Z.of_nat (List.length errs) =? Z.of_nat (List.length errs)) with true
    by (symmetry; apply Z.eqb_eq; lia).
  replace (List.length errs =? 0)%nat with false by (symmetry; apply Nat.eqb_neq; lia).
  replace (0 + Z.of_nat (List.length (removelast errs)) =? Z.of_nat (List.length errs))
    with false by (symmetry; apply Z.eqb_neq; lia).
  repeat split.
Qed.

(** Three stored favicons; the second conversion fails. *)
Lemma conversions_join_once_witness :
  snd (join (converted_one "favicons/example.com/") [false; true; false]
         (mkJob 4 4 true 0 3 [Scenario.icon_a; Scenario.icon_b; Page.icon_c]))
  = [ServeFromCache "favicons/example.com/"].
Proof.
  apply (conversions_join_once "favicons/example.com/" [false; true; false]
           (mkJob 4 4 true 0 3 [Scenario.icon_a; Scenario.icon_b; Page.icon_c])).
  - reflexivity.
  - reflexivity.
  - discriminate.
Defined.

Lemma converts_length (foldername dirname host last : string) (favicons : list faviconObj) :
  forall (j : nat) (written : list bool),
    List.length written = List.length favicons ->
    List.length (converts foldername dirname host last j favicons written)
    = count_written written.
Proof.
  induction favicons as [|fi rest IH]; intros j [|w ws] Hlen; try discriminate;
    [reflexivity|].
  simpl in Hlen. injection Hlen as Hlen. simpl converts.
  rewrite length_app, (IH (S j) ws Hlen). unfold count_written.
  destruct w; reflexivity.
Qed.

Lemma count_written_failed (written : list bool) :
  In false written -> (count_written written < List.length written)%nat.
Proof.
  unfold count_written. induction written as [|w ws IH]; [contradiction|].
  intros [->|Hin]; simpl.
  - pose proof (filter_length_le (fun w => w) ws). lia.
  - specialize (IH Hin). destruct w; simpl; lia.
Qed.

(** X7.  A conversion is started for every favicon whose file was written
    and for no other; when one file could not be written, the reports of
    the conversions that were started never bring [converted] up to
    [stored], and the cache is not read again. *)
Theorem failed_write_blocks_lookup (dirname host : string) (written errs : list bool)
    (s : job) :
  converted s = 0 -> stored s = Z.of_nat (List.length (favicons s)) ->
  List.length written = List.length (favicons s) ->
  List.length errs = List.length (conversions dirname host (favicons s) written) ->
  In false written ->
  List.length (conversions dirname host (favicons s) written) = count_written written
  /\ snd (join (converted_one (foldername_of dirname host)) errs s) = []
  /\ converted (fst (join (converted_one (foldername_of dirname host)) errs s))
     < stored s.
Proof.
  intros Hc Hs Hw He Hfailed.
  assert (Hn : List.length (conversions dirname host (favicons s) written)
               = count_written written) by now apply converts_length.
  pose proof (count_written_failed written Hfailed) as Hlt.
  destruct (join_converted_one (foldername_of dirname host) errs s) as (Hc1 & _ & Ha); [lia|].
  rewrite Ha, Hc1.
  replace (converted s + Z.of_nat (List.length errs) =? stored s) with false
    by (symmetry; apply Z.eqb_neq; lia).
  repeat split; [exact Hn | lia].
Qed.

(** Two stored favicons; the file of the first cannot be written, the
    conversion of the second succeeds. *)
Lemma failed_write_blocks_lookup_witness :
  snd (join (converted_one (foldername_of "/srv" "example.com")) [false]
         (mkJob 4 4 true 0 2 [Scenario.icon_a; Scenario.icon_b]))
  = [].
Proof.
  apply (failed_write_blocks_lookup "/srv" "example.com" [false; true] [false]
           (mkJob 4 4 true 0 2 [Scenario.icon_a; Scenario.icon_b])).
  - reflexivity.
  - reflexivity.
  - reflexivity.
  - reflexivity.
  - left. reflexivity.
Defined.

Lemma convertFn_ends (foldername j thisFilename : string) (fi : faviconObj) :
  hd "" (convertFn foldername j thisFilename fi) = thisFilename
  /\ last (convertFn foldername j thisFilename fi) ""
     = foldername ++ j ++ ".%[filename:area].png".
Proof.
  unfold convertFn. destruct (bgcolor fi) as [color|]; [|split; reflexivity].
  destruct (truthy (Some color)); split; reflexivity.
Qed.

Lemma converts_orders (foldername dirname host last : string) (favicons : list faviconObj) :
  forall (j : nat) (written : list bool),
    Forall (fun orders => List.last orders "" = foldername ++ last ++ ".%[filename:area].png")
      (converts foldername dirname host last j favicons written)
    /\ (List.length written = List.length favicons ->
        forallb (fun w => w) written = true ->
        map (hd "") (converts foldername dirname host last j favicons written)
        = map (filename_of dirname host) (seq j (List.length favicons))).
Proof.
  induction favicons as [|fi rest IH]; intros j [|w ws]; simpl converts;
    try (split; [constructor | intros; try discriminate; reflexivity]).
  destruct (IH (S j) ws) as [Hall Hmap]. split.
  - apply Forall_app. split; [|exact Hall].
    destruct w; simpl; [|constructor].
    constructor; [|constructor]. apply convertFn_ends.
  - intros Hlen Hw. simpl in Hlen. injection Hlen as Hlen.
    simpl in Hw. apply andb_prop in Hw. destruct Hw as [-> Hw].
    simpl. rewrite (Hmap Hlen Hw).
    f_equal. apply convertFn_ends.
Qed.

(** X8.  Every conversion that follows one run of the completion block
    names the same output, the template under the key of the last stored
    favicon, because [convertFn] reads the loop variable after the loop
    has ended; the inputs are the temporary files of the favicons, in
    order, when all were written. *)
Theorem conversions_share_output (dirname host : string) (favicons : list faviconObj)
    (written : list bool) :
  Forall (fun orders =>
            List.last orders ""
            = foldername_of dirname host ++ key (List.length favicons - 1)
                ++ ".%[filename:area].png")
    (conversions dirname host favicons written)
  /\ (List.length written = List.length favicons ->
      forallb (fun w => w) written = true ->
      map (hd "") (conversions dirname host favicons written)
      = map (filename_of dirname host) (seq 0 (List.length favicons))).
Proof. apply converts_orders. Qed.

(** Two favicons, both written: the inputs are the temporary files 0 and
    1, and both outputs are named under the key 1. *)
Lemma conversions_share_output_witness :
  map (hd "") (conversions "/srv" "example.com" [Scenario.icon_a; Scenario.icon_b]
                 [true; true])
  = ["/srv/favicons/tmp/example.com-tmp-0.ico"; "/srv/favicons/tmp/example.com-tmp-1.ico"]
  /\ map (fun orders => List.last orders "")
       (conversions "/srv" "example.com" [Scenario.icon_a; Scenario.icon_b] [true; true])
     = ["/srv/favicons/example.com/1.%[filename:area].png";
        "/srv/favicons/example.com/1.%[filename:area].png"].
Proof.
  destruct (conversions_share_output "/srv" "example.com"
              [Scenario.icon_a; Scenario.icon_b] [true; true]) as [_ Hinputs].
  split; [apply Hinputs; reflexivity | reflexivity].
Defined.

(** ** Fetching *)

(** X9.  Whatever redirects [getFavicon] follows, the candidate it calls
    back with has the background colour it was given, and its payload is
    the one it had or the whole body of a response with status 200. *)
Theorem getFavicon_keeps_bgcolor (hops : nat) (net : network) (o o' : faviconObj) :
  getFavicon hops net o = Fetch.Called o' ->
  bgcolor o' = bgcolor o
  /\ (data o' = data o
      \/ exists p u location chunks,
           net p u = Response 200 location chunks
           /\ data o' = Some (List.concat chunks)).
Proof.
  revert o. induction hops as [|hops IH]; intros o; rewrite getFavicon_unfold; cbn zeta;
    destruct (net _ _) as [statusCode location chunks|] eqn:Hnet;
    try (intros [= <-]; split; [reflexivity | now left]);
    (destruct (statusCode =? 200) eqn:H200;
     [ apply Z.eqb_eq in H200; subst statusCode; intros [= <-];
       split; [reflexivity | right; eauto 6]
     | destruct ((statusCode =? 301) || (statusCode =? 302));
       [ destruct location as [l|]; [|discriminate]
       | intros [= <-]; split; [reflexivity | now left] ] ]).
  - discriminate.
  - intros H. apply IH in H. exact H.
Qed.

(** The tile icon, found behind one redirect. *)
Lemma getFavicon_keeps_bgcolor_witness :
  bgcolor (mkFavicon "http://example.com/0123456789abcdefa" (Some "#ffffff") (Some [x00]))
  = bgcolor (mkFavicon "http://example.com/0123456789abcdef" (Some "#ffffff") None).
Proof.
  apply (getFavicon_keeps_bgcolor 1 (Scenario.chain 36)
           (mkFavicon "http://example.com/0123456789abcdef" (Some "#ffffff") None)
           (mkFavicon "http://example.com/0123456789abcdefa" (Some "#ffffff") (Some [x00]))).
  reflexivity.
Defined.

(** X10.  A server that answers every request with a redirect is followed
    without end: [getFavicon] does not call back, however many redirects
    it has followed. *)
Theorem redirect_loop_never_calls_back (hops : nat) (statusCode : Z) (l : string)
    (body : buffer) (o : faviconObj) :
  statusCode = 301 \/ statusCode = 302 ->
  getFavicon hops (Scenario.always statusCode (Some l) body) o = Fetch.Pending.
Proof.
  intros Hst. revert o. induction hops as [|hops IH]; intros o;
    rewrite getFavicon_unfold; cbn zeta; unfold Scenario.always at 1;
    destruct Hst as [-> | ->]; simpl; try reflexivity; apply IH.
Qed.

(** A server that redirects its icon to itself, after 1000 redirects. *)
Lemma redirect_loop_never_calls_back_witness :
  getFavicon 1000 (Scenario.always 301 (Some "http://example.com/favicon.ico") [])
    Scenario.root_icon
  = Fetch.Pending.
Proof.
  apply (redirect_loop_never_calls_back 1000 301 "http://example.com/favicon.ico" []
           Scenario.root_icon).
  left. reflexivity.
Defined.

(** The body of [getHTML], one call unfolded. *)
Lemma getHTML_unfold (hops : nat) (net : Html.web) (url : string)
    (protocol : Html.protocol_arg) (root : string) :
  Html.getHTML hops net url protocol root =
  let u := Html.target url protocol root in
  match net (Html.client_of u) u with
  | Html.Page statusCode location chunks =>
      if statusCode =? 200 then Html.Called (Some (Html.join_chunks chunks))
      else if (statusCode =? 301) || (statusCode =? 302) then
        match location with
        | Some l =>
            match hops with
            | O => Html.Pending
            | S h => Html.getHTML h net l (Html.ClientObject (Html.client_of u)) root
            end
        | None => Html.Thrown
        end
      else Html.Called None
  | Html.PageError => Html.Called None
  end.
Proof. destruct hops; reflexivity. Qed.

(** X11.  After a 301 or 302 response with a [location] header, [getHTML]
    fetches the location resolved as [fixupUrl] resolves it, with the
    client module in the place of the protocol text: a location that does
    not begin with [/] is requested as it is, one that begins with a
    single [/] is requested under the root, and one that begins with [//]
    is requested with [[object Object]] before it. *)
Theorem getHTML_redirect (hops : nat) (net : Html.web) (url : string)
    (protocol : Html.protocol_arg) (root : string) (statusCode : Z) (l : string)
    (chunks : list string) :
  statusCode = 301 \/ statusCode = 302 ->
  net (Html.client_of (Html.target url protocol root)) (Html.target url protocol root)
  = Html.Page statusCode (Some l) chunks ->
  Html.getHTML (S hops) net url protocol root
  = Html.getHTML hops net l
      (Html.ClientObject (Html.client_of (Html.target url protocol root))) root
  /\ (forall c,
        (prefix "/" l = false -> Html.target l (Html.ClientObject c) root = l)
        /\ (forall rest, l = "/" ++ rest -> prefix "/" rest = false ->
              Html.target l (Html.ClientObject c) root = root ++ l)
        /\ (forall rest, l = "//" ++ rest ->
              Html.target l (Html.ClientObject c) root = "[object Object]" ++ l)).
Proof.
  intros Hst Hnet. split.
  - rewrite (getHTML_unfold (S hops)). cbn zeta. rewrite Hnet.
    destruct Hst as [-> | ->]; reflexivity.
  - intros c. unfold Html.target. repeat split.
    + intros Hl. now apply fixupUrl_other.
    + intros rest -> Hrest. now apply fixupUrl_single_slash.
    + intros rest ->. reflexivity.
Qed.

(** The root page redirects to [/home], which is then requested under the
    root. *)
Lemma getHTML_redirect_witness :
  Html.getHTML 1
    (fun _ u => if String.eqb u "http://example.com"
                then Html.Page 302 (Some "/home") []
                else Html.Page 200 None ["<html>"; "</html>"])
    "http://example.com" (Html.Scheme "http:") "http://example.com"
  = Html.getHTML 0
      (fun _ u => if String.eqb u "http://example.com"
                  then Html.Page 302 (Some "/home") []
                  else Html.Page 200 None ["<html>"; "</html>"])
      "/home" (Html.ClientObject Fetch.http) "http://example.com"
  /\ Html.target "/home" (Html.ClientObject Fetch.http) "http://example.com"
     = "http://example.com/home".
Proof.
  destruct (getHTML_redirect 0
              (fun _ u => if String.eqb u "http://example.com"
                          then Html.Page 302 (Some "/home") []
                          else Html.Page 200 None ["<html>"; "</html>"])
              "http://example.com" (Html.Scheme "http:") "http://example.com"
              302 "/home" [] (or_intror eq_refl) eq_refl) as [Hnext Htarget].
  split; [exact Hnext|].
  destruct (Htarget Fetch.http) as (_ & Hsingle & _).
  apply (Hsingle "home"); reflexivity.
Defined.

(** X12.  When the HTML fetch ends in the ['error'] event or in a status
    other than 200, 301 and 302, [getHTML] calls back without HTML,
    whatever redirects it was allowed; its callback then sets [htmlLoaded]
    and counts one arrival, leaving [expected] and the stored favicons as
    they were, and a page with an empty text is treated in the same
    way. *)
Theorem getHTML_failure_resolves (hops : nat) (net : Html.web) (url : string)
    (protocol : Html.protocol_arg) (root : string) (r p : string) (s : job) :
  (net (Html.client_of (Html.target url protocol root)) (Html.target url protocol root)
   = Html.PageError
   \/ exists statusCode location chunks,
        net (Html.client_of (Html.target url protocol root)) (Html.target url protocol root)
        = Html.Page statusCode location chunks
        /\ statusCode <> 200 /\ statusCode <> 301 /\ statusCode <> 302) ->
  Html.getHTML hops net url protocol root = Html.Called None
  /\ htmlLoaded (fst (html_loaded r p None s)) = true
  /\ returned (fst (html_loaded r p None s)) = returned s + 1
  /\ expected (fst (html_loaded r p None s)) = expected s
  /\ favicons (fst (html_loaded r p None s)) = favicons s
  /\ (forall h, Resolver.html_text h = "" ->
        html_loaded r p (Some h) s = html_loaded r p None s).
Proof.
  intros Hnet. split.
  - rewrite getHTML_unfold. cbn zeta.
    destruct Hnet as [-> | (statusCode & location & chunks & -> & H200 & H301 & H302)];
      [reflexivity|].
    apply Z.eqb_neq in H200, H301, H302. rewrite H200, H301, H302. reflexivity.
  - unfold html_loaded, done. simpl.
    destruct (complete _); simpl; repeat split; intros h ->; reflexivity.
Qed.

(** The root page answers 404 while one root icon has arrived. *)
Lemma getHTML_failure_resolves_witness :
  Html.getHTML 5 (fun _ _ => Html.Page 404 None ["Not Found"])
    "http://example.com" (Html.Scheme "http:") "http://example.com"
  = Html.Called None
  /\ returned (fst (html_loaded "http://example.com" "http:" None
                      (mkJob 1 3 false 0 1 [Scenario.icon_a])))
     = 2.
Proof.
  destruct (getHTML_failure_resolves 5 (fun _ _ => Html.Page 404 None ["Not Found"])
              "http://example.com" (Html.Scheme "http:") "http://example.com"
              "http://example.com" "http:" (mkJob 1 3 false 0 1 [Scenario.icon_a]))
    as (Hcalled & _ & Hreturned & _).
  - right. exists 404, None, ["Not Found"]. repeat split; discriminate.
  - split; [exact Hcalled | exact Hreturned].
Defined.

(** ** The cache, further *)


(** X13.  What the loop of [getBestFromCache] settles on is a file of the
    listing: a perfect fit, or, when the listing has none, a file whose
    difference is a number above the start value -100000; it settles on
    no file only when its difference is still the start value. *)
Theorem best_chooses_listed (ToNumber : string -> option Z) (size : requested)
    (files : list string) :
  match best ToNumber size files None (-100000) with
  | Perfect file => In file files /\ loose_eq ToNumber size (width_of file) = true
  | Closest (Some file) d =>
      In file files
      /\ difference_of ToNumber (width_of file) size = Some d
      /\ -100000 < d
      /\ Listing.no_perfect ToNumber size files
  | Closest None d => d = -100000 /\ Listing.no_perfect ToNumber size files
  end.
Proof.
  pose proof (best_listed ToNumber size files None (-100000)) as H.
  destruct (best ToNumber size files None (-100000)) as [file|[file|] d].
  - exact H.
  - destruct H as [Hno [[[=] _] | (f & [= <-] & Hin & Hd & Hlt)]]. tauto.
  - destruct H as [Hno [[_ ->] | (f & [=] & _)]]. tauto.
Qed.

(** X14.  When no file of the listing is a perfect fit and none is
    oversized, the loop settles on the largest difference: no file has a
    greater one, and the file chosen is the first that has it. *)
Theorem best_largest_undersized (ToNumber : string -> option Z) (size : requested)
    (files : list string) :
  Listing.no_perfect ToNumber size files ->
  Forall (Fit.at_most ToNumber size 0) files ->
  exists bestFit d,
    best ToNumber size files None (-100000) = Closest bestFit d
    /\ Forall (Fit.at_most ToNumber size d) files
    /\ match bestFit with
       | Some file =>
           difference_of ToNumber (width_of file) size = Some d
           /\ exists before after,
                files = (before ++ file :: after)%list
                /\ Forall (Fit.below ToNumber size d) before
       | None => d = -100000
       end.
Proof.
  intros Hno Hunder.
  destruct (best_largest ToNumber size files None (-100000)) as (b & d & Hbest & _ & Hall & Hcase);
    [lia | assumption | assumption |].
  exists b, d. split; [exact Hbest|]. split; [exact Hall|].
  destruct Hcase as [[-> ->] | (before & file & after & Hfiles & -> & Hd & _ & Hbefore)];
    [reflexivity|].
  split; [exact Hd|]. exists before, after. split; assumption.
Qed.

(** The widths 8, 12 and 12 for the size 16: the first file of width 12. *)
Lemma best_largest_undersized_witness :
  exists bestFit d,
    best decimal (Number 16) ["0.8.png"; "1.12.png"; "2.12.png"] None (-100000)
    = Closest bestFit d
    /\ Forall (Fit.at_most decimal (Number 16) d) ["0.8.png"; "1.12.png"; "2.12.png"]
    /\ match bestFit with
       | Some file =>
           difference_of decimal (width_of file) (Number 16) = Some d
           /\ exists before after,
                ["0.8.png"; "1.12.png"; "2.12.png"] = (before ++ file :: after)%list
                /\ Forall (Fit.below decimal (Number 16) d) before
       | None => d = -100000
       end.
Proof.
  apply (best_largest_undersized decimal (Number 16) ["0.8.png"; "1.12.png"; "2.12.png"]).
  - repeat constructor.
  - repeat constructor; unfold Fit.at_most; simpl; lia.
Defined.

(** X15.  When the listing is empty, or no file of it is a perfect fit or
    has a difference above -100000 (a name without a second part, a width
    that is no number), [getBestFromCache] calls [sendEmpty] and then
    still calls [loadIcon], on the folder name followed by [null]. *)
Theorem no_usable_width_sends_empty (ToNumber : string -> option Z) (foldername : string)
    (size : requested) (cb : list action) (files : list string) :
  Listing.no_perfect ToNumber size files ->
  Forall (Fit.at_most ToNumber size (-100000)) files ->
  getBestFromCache ToNumber foldername size cb (Some files)
  = [SendEmpty; LoadIcon (foldername ++ "null")].
Proof.
  intros Hno Hall. unfold getBestFromCache.
  rewrite (best_unusable ToNumber size files Hno Hall). reflexivity.
Qed.

(** A directory that holds one file without a dot and one whose second
    part is no number. *)
Lemma no_usable_width_sends_empty_witness :
  getBestFromCache decimal "favicons/example.com/" (Number 16) []
    (Some ["README"; "0.wide.png"])
  = [SendEmpty; LoadIcon "favicons/example.com/null"].
Proof.
  apply (no_usable_width_sends_empty decimal "favicons/example.com/" (Number 16) []
           ["README"; "0.wide.png"]).
  - repeat constructor.
  - repeat constructor.
Defined.

Lemma split_dotless (a b : string) :
  Fit.dotless a = true -> split (a ++ String "." b) = a :: split b.
Proof.
  induction a as [|c a IH]; [reflexivity|].
  simpl. intros H. apply andb_prop in H. destruct H as [Hc Ha].
  apply negb_true_iff in Hc. rewrite Hc, (IH Ha). reflexivity.
Qed.

(** X16.  The width that [getBestFromCache] reads from a file name is the
    text between the first and the second dot: for a file named by a key,
    a width and [png], it is the width; so a request whose [size] is that
    text gets this file at once, wherever the loop stands. *)
Theorem width_of_converted_name (ToNumber : string -> option Z) (j w : string)
    (rest : list string) (bestFit : option string) (bestFitDifference : Z) :
  Fit.dotless j = true -> Fit.dotless w = true ->
  width_of (j ++ "." ++ w ++ ".png") = Some w
  /\ best ToNumber (Text w) ((j ++ "." ++ w ++ ".png") :: rest) bestFit bestFitDifference
     = Perfect (j ++ "." ++ w ++ ".png").
Proof.
  intros Hj Hw.
  assert (Hwidth : width_of (j ++ "." ++ w ++ ".png") = Some w).
  { unfold width_of. change (j ++ "." ++ w ++ ".png") with (j ++ String "." (w ++ ".png")).
    rewrite (split_dotless j (w ++ ".png") Hj).
    change (w ++ ".png") with (w ++ String "." "png").
    rewrite (split_dotless w "png" Hw). reflexivity. }
  split; [exact Hwidth|].
  apply (best_perfect ToNumber (Text w) [] rest (j ++ "." ++ w ++ ".png")).
  - constructor.
  - rewrite Hwidth. simpl. apply String.eqb_refl.
Qed.

(** The file of width 32 under the key 1, asked for with [size=32]. *)
Lemma width_of_converted_name_witness :
  width_of "1.32.png" = Some "32"
  /\ best decimal (Text "32") ["1.32.png"; "1.48.png"] None (-100000) = Perfect "1.32.png".
Proof.
  apply (width_of_converted_name decimal "1" "32" ["1.48.png"] None (-100000));
    reflexivity.
Defined.

(** ** The request handler, further *)

(** X17.  The handler either only answers the request, or it runs
    [retrieveAllFavicons] and answers nothing itself; it makes the cache
    directory first exactly when the directory does not exist. *)
Theorem handler_answers_or_resolves (ToNumber : string -> option Z)
    (url_parse : string -> urlObj) (dirname : string) (req : request) (now : Z)
    (disk : string -> option directory) :
  forallb answers (handler ToNumber url_parse dirname req now disk) = true
  \/ (disk (cacheDir_of url_parse dirname req) <> None
      /\ handler ToNumber url_parse dirname req now disk
         = retrieveAllFavicons
             (protocol (rootObj_of url_parse req) ++ "//" ++ host (rootObj_of url_parse req)))
  \/ (disk (cacheDir_of url_parse dirname req) = None
      /\ handler ToNumber url_parse dirname req now disk
         = Mkdir (cacheDir_of url_parse dirname req)
             :: retrieveAllFavicons
                  (protocol (rootObj_of url_parse req) ++ "//"
                     ++ host (rootObj_of url_parse req))).
Proof.
  unfold handler. destruct (String.eqb (pathname1 req) "favicon.ico"); [now left|].
  cbn zeta. destruct (disk (cacheDir_of url_parse dirname req)) as [d|] eqn:Hdisk.
  - assert (Hbest : forall cb,
               forallb answers
                 (getBestFromCache ToNumber (cacheDir_of url_parse dirname req)
                    (size_of req) cb (readdir d)) = true
               \/ getBestFromCache ToNumber (cacheDir_of url_parse dirname req)
                    (size_of req) cb (readdir d) = cb).
    { intros cb. destruct (readdir d) as [files|]; [left | right; reflexivity].
      apply getBestFromCache_answers. }
    unfold serveFromCache.
    destruct (now - CACHE_TTL =? 0).
    + destruct (Hbest (retrieveAllFavicons
                         (protocol (rootObj_of url_parse req) ++ "//"
                            ++ host (rootObj_of url_parse req)))) as [H|H];
        [now left | right; left; split; [discriminate | exact H]].
    + destruct (stat d) as [mtime|]; [|right; left; split; [discriminate | reflexivity]].
      destruct (mtime <? now - CACHE_TTL);
        [right; left; split; [discriminate | reflexivity]|].
      destruct (Hbest (retrieveAllFavicons
                         (protocol (rootObj_of url_parse req) ++ "//"
                            ++ host (rootObj_of url_parse req)))) as [H|H];
        [now left | right; left; split; [discriminate | exact H]].
  - right. right. split; reflexivity.
Qed.

Lemma has_scheme_inside (a b : string) :
  has_scheme (a ++ "http://" ++ b) = true /\ has_scheme (a ++ "https://" ++ b) = true.
Proof.
  induction a as [|c a [IH1 IH2]]; [split; destruct b; reflexivity|].
  split.
  - change ((String c a) ++ "http://" ++ b) with (String c (a ++ "http://" ++ b)).
    change (has_scheme (String c (a ++ "http://" ++ b)))
      with (scheme_at (String c (a ++ "http://" ++ b)) || has_scheme (a ++ "http://" ++ b)).
    rewrite IH1. apply orb_true_r.
  - change ((String c a) ++ "https://" ++ b) with (String c (a ++ "https://" ++ b)).
    change (has_scheme (String c (a ++ "https://" ++ b)))
      with (scheme_at (String c (a ++ "https://" ++ b)) || has_scheme (a ++ "https://" ++ b)).
    rewrite IH2. apply orb_true_r.
Qed.

Lemma has_scheme_unfold (root : string) :
  has_scheme root
  = scheme_at root
    || match root with
       | EmptyString => false
       | String _ rest => has_scheme rest
       end.
Proof. destruct root; reflexivity. Qed.

Lemma skip_s_esses (n : nat) (b : string) :
  skip_s (Pattern.esses n ++ "://" ++ b) = "://" ++ b.
Proof. induction n as [|n IH]; [reflexivity | exact IH]. Qed.

Lemma skip_s_split (r : string) : exists n, r = Pattern.esses n ++ skip_s r.
Proof.
  induction r as [|c r [n IH]]; [exists O; reflexivity|].
  destruct (Ascii.eqb_spec c "s") as [->|Hc].
  - exists (S n). simpl. now rewrite <- IH.
  - exists O. destruct c as [[] [] [] [] [] [] [] []]; try reflexivity. now elim Hc.
Qed.

Lemma prefix_split (p x : string) : prefix p x = true -> exists b, x = p ++ b.
Proof.
  revert x. induction p as [|a p IH]; intros x; [exists x; reflexivity|].
  destruct x as [|c x]; simpl; [discriminate|].
  destruct (ascii_dec a c) as [->|]; [|discriminate].
  intros H. destruct (IH x H) as [b ->]. now exists b.
Qed.

Lemma prefix_here (p b : string) : prefix p (p ++ b) = true.
Proof.
  induction p as [|a p IH]; [destruct b; reflexivity|].
  simpl. destruct (ascii_dec a a) as [_|Ha]; [exact IH | now elim Ha].
Qed.

Lemma scheme_at_split (s : string) :
  scheme_at s = true ->
  exists rest, s = "http" ++ rest /\ prefix "://" (skip_s rest) = true.
Proof.
  destruct s as [|c1 s]; [discriminate|].
  destruct c1 as [[] [] [] [] [] [] [] []]; simpl; try discriminate.
  destruct s as [|c2 s]; [discriminate|].
  destruct c2 as [[] [] [] [] [] [] [] []]; simpl; try discriminate.
  destruct s as [|c3 s]; [discriminate|].
  destruct c3 as [[] [] [] [] [] [] [] []]; simpl; try discriminate.
  destruct s as [|c4 rest]; [discriminate|].
  destruct c4 as [[] [] [] [] [] [] [] []]; simpl; try discriminate.
  intros H. exists rest. split; [reflexivity | exact H].
Qed.

Lemma has_scheme_matches (root : string) :
  has_scheme root = true
  <-> exists a n b, root = a ++ "http" ++ Pattern.esses n ++ "://" ++ b.
Proof.
  split.
  - induction root as [|c r IH]; [discriminate|].
    rewrite has_scheme_unfold. intros H. apply orb_prop in H. destruct H as [H|H].
    + apply scheme_at_split in H. destruct H as (rest & -> & Hrest).
      apply prefix_split in Hrest. destruct Hrest as [b Hb].
      destruct (skip_s_split rest) as [n Hn]. rewrite Hb in Hn.
      exists "", n, b. rewrite Hn. reflexivity.
    + destruct (IH H) as (a & n & b & ->). exists (String c a), n, b. reflexivity.
  - intros (a & n & b & ->). induction a as [|c a IH].
    + rewrite has_scheme_unfold. apply orb_true_iff. left.
      change (scheme_at ("" ++ "http" ++ Pattern.esses n ++ "://" ++ b))
        with (prefix "://" (skip_s (Pattern.esses n ++ "://" ++ b))).
      rewrite skip_s_esses. apply (prefix_here "://" b).
    + rewrite has_scheme_unfold. apply orb_true_iff. right. exact IH.
Qed.

(** X18.  The root that the handler passes to [url.parse] always matches
    [/http[s]*:\/\//]: a root matches when it holds [http], any number of
    [s] and [://] somewhere, and is then passed as it is; any root that
    does not match gets [http://] in front; doing this twice changes
    nothing more. *)
Theorem normalize_has_scheme (url_parse : string -> urlObj) (req : request)
    (root a b : string) :
  rootObj_of url_parse req = url_parse (Counting.normalize (pathname1 req))
  /\ has_scheme (Counting.normalize root) = true
  /\ Counting.normalize (Counting.normalize root) = Counting.normalize root
  /\ Counting.normalize (a ++ "http://" ++ b) = a ++ "http://" ++ b
  /\ Counting.normalize (a ++ "https://" ++ b) = a ++ "https://" ++ b
  /\ (has_scheme root = true
      <-> exists a' n b', root = a' ++ "http" ++ Pattern.esses n ++ "://" ++ b')
  /\ (has_scheme root = true -> Counting.normalize root = root)
  /\ (has_scheme root = false -> Counting.normalize root = "http://" ++ root)
  /\ (has_scheme (pathname1 req) = true ->
      rootObj_of url_parse req = url_parse (pathname1 req))
  /\ (has_scheme (pathname1 req) = false ->
      rootObj_of url_parse req = url_parse ("http://" ++ pathname1 req)).
Proof.
  assert (Hscheme : has_scheme (Counting.normalize root) = true).
  { unfold Counting.normalize. destruct (has_scheme root) eqn:Hroot; [exact Hroot|].
    apply (has_scheme_inside "" root). }
  destruct (has_scheme_inside a b) as [Hhttp Hhttps].
  split; [reflexivity|]. split; [exact Hscheme|].
  split; [unfold Counting.normalize at 1; now rewrite Hscheme|].
  split; [unfold Counting.normalize; now rewrite Hhttp|].
  split; [unfold Counting.normalize; now rewrite Hhttps|].
  split; [apply has_scheme_matches|].
  split; [intros H; unfold Counting.normalize; now rewrite H|].
  split; [intros H; unfold Counting.normalize; now rewrite H|].
  split; intros H; unfold rootObj_of; cbn zeta; now rewrite H.
Qed.

(** A host without scheme, and a root with the scheme [httpss]. *)
Lemma normalize_has_scheme_witness :
  rootObj_of Scenario.parse_example (mkRequest "example.com" None)
  = Scenario.parse_example "http://example.com"
  /\ Counting.normalize "example.com" = "http://example.com"
  /\ Counting.normalize "httpss://example.com" = "httpss://example.com".
Proof.
  pose proof (normalize_has_scheme Scenario.parse_example (mkRequest "example.com" None)
                "example.com" "" "")
    as (_ & _ & _ & _ & _ & _ & _ & Hprefixed & _ & Hparsed).
  pose proof (normalize_has_scheme Scenario.parse_example (mkRequest "example.com" None)
                "httpss://example.com" "" "")
    as (_ & _ & _ & _ & _ & Hmatches & Hkept & _).
  split; [apply Hparsed; reflexivity|].
  split; [apply Hprefixed; reflexivity|].
  apply Hkept, Hmatches. exists "", 2%nat, "example.com". reflexivity.
Defined.

(** ** The predecessor's HTML fetch *)

(** X19.  [getHTML] of the synchronous predecessor never calls back after
    the ['error'] event; wherever it does end otherwise, [getHTML] of
    [server.js] ends in the same way, and where it is dropped [server.js]
    calls back without HTML. *)
Theorem getHTML_first_drops_errors (hops : nat) (net : Html.web) (url : string)
    (protocol : Html.protocol_arg) (root : string) :
  (net (Html.client_of (Html.target url protocol root)) (Html.target url protocol root)
   = Html.PageError ->
   Html.getHTML_first hops net url protocol root = Html.Dropped)
  /\ (Html.getHTML_first hops net url protocol root <> Html.Dropped ->
      Html.getHTML hops net url protocol root
      = Html.getHTML_first hops net url protocol root)
  /\ (Html.getHTML_first hops net url protocol root = Html.Dropped ->
      Html.getHTML hops net url protocol root = Html.Called None).
Proof.
  split.
  - intros Hnet. destruct hops; simpl; rewrite Hnet; reflexivity.
  - revert url protocol. induction hops as [|hops IH]; intros url protocol;
      rewrite getHTML_unfold; cbn zeta; simpl Html.getHTML_first;
      destruct (net _ _) as [statusCode location chunks|];
      try (split; [intros H; now elim H | reflexivity]);
      destruct (statusCode =? 200); try (split; [reflexivity | discriminate]);
      destruct ((statusCode =? 301) || (statusCode =? 302));
      try (split; [reflexivity | discriminate]);
      destruct location as [l|]; try (split; [reflexivity | discriminate]).
    apply IH.
Qed.

(** A server whose root page cannot be reached. *)
Lemma getHTML_first_drops_errors_witness :
  Html.getHTML_first 3 (fun _ _ => Html.PageError) "http://example.com"
    (Html.Scheme "http:") "http://example.com"
  = Html.Dropped
  /\ Html.getHTML 3 (fun _ _ => Html.PageError) "http://example.com"
       (Html.Scheme "http:") "http://example.com"
     = Html.Called None.
Proof.
  destruct (getHTML_first_drops_errors 3 (fun _ _ => Html.PageError) "http://example.com"
              (Html.Scheme "http:") "http://example.com") as (Hdropped & _ & Hcalled).
  split; [apply Hdropped; reflexivity | apply Hcalled; apply Hdropped; reflexivity].
Defined.

(** ** Answering *)

(** X20.  A request whose cache directory is fresh and lists a perfect
    fit that can be read is answered with one header, status 200 and type
    [image/png], and the content of the first such file. *)
Theorem fresh_perfect_fit_is_served (ToNumber : string -> option Z)
    (url_parse : string -> urlObj) (dirname : string) (req : request) (now : Z)
    (disk : string -> option directory) (d : directory) (mtime : Z)
    (before after : list string) (file : string)
    (readFile : string -> option buffer) (defaultFavicon : option buffer)
    (favicon : buffer) :
  String.eqb (pathname1 req) "favicon.ico" = false ->
  disk (cacheDir_of url_parse dirname req) = Some d ->
  stat d = Some mtime -> now - CACHE_TTL <= mtime ->
  readdir d = Some (before ++ file :: after)%list ->
  Listing.no_perfect ToNumber (size_of req) before ->
  loose_eq ToNumber (size_of req) (width_of file) = true ->
  readFile (cacheDir_of url_parse dirname req ++ file) = Some favicon ->
  Reply.response readFile defaultFavicon
    (handler ToNumber url_parse dirname req now disk)
  = [Reply.WriteHead 200 "image/png"; Reply.End_ (Some favicon)].
Proof.
  intros Hpath Hdisk Hstat Hfresh Hreaddir Hbefore Hfile Hread.
  unfold handler. rewrite Hpath. cbn zeta. rewrite Hdisk.
  unfold serveFromCache. rewrite Hstat, Hreaddir.
  replace (mtime <? now - CACHE_TTL) with false by (symmetry; apply Z.ltb_ge; lia).
  assert (Hbest : getBestFromCache ToNumber (cacheDir_of url_parse dirname req)
                    (size_of req)
                    (retrieveAllFavicons
                       (protocol (rootObj_of url_parse req) ++ "//"
                          ++ host (rootObj_of url_parse req)))
                    (Some (before ++ file :: after)%list)
                  = [LoadIcon (cacheDir_of url_parse dirname req ++ file)]).
  { unfold getBestFromCache.
    now rewrite (best_perfect ToNumber (size_of req) before after file None (-100000)). }
  destruct (now - CACHE_TTL =? 0); rewrite Hbest; simpl;
    unfold Reply.loadIcon; rewrite Hread; reflexivity.
Qed.

(** A request with [size=32] one hour after the widths 16 and 32 were
    cached. *)
Lemma fresh_perfect_fit_is_served_witness :
  Reply.response
    (fun path => if String.eqb path "/srv/favicons/example.com/0.32.png"
                 then Some [x89; x50] else None)
    None
    (handler decimal Scenario.parse_example "/srv" (mkRequest "example.com" (Some "32"))
       1700000000000
       (Scenario.disk_with
          (mkDirectory (Some (1700000000000 - 3600000)) (Some ["0.16.png"; "0.32.png"]))))
  = [Reply.WriteHead 200 "image/png"; Reply.End_ (Some [x89; x50])].
Proof.
  apply (fresh_perfect_fit_is_served decimal Scenario.parse_example "/srv"
           (mkRequest "example.com" (Some "32")) 1700000000000
           (Scenario.disk_with
              (mkDirectory (Some (1700000000000 - 3600000))
                 (Some ["0.16.png"; "0.32.png"])))
           (mkDirectory (Some (1700000000000 - 3600000)) (Some ["0.16.png"; "0.32.png"]))
           (1700000000000 - 3600000) ["0.16.png"] [] "0.32.png"
           (fun path => if String.eqb path "/srv/favicons/example.com/0.32.png"
                        then Some [x89; x50] else None)
           None [x89; x50]).
  - reflexivity.
  - reflexivity.
  - reflexivity.
  - unfold CACHE_TTL. lia.
  - reflexivity.
  - repeat constructor.
  - reflexivity.
  - reflexivity.
Defined.

(** X21.  When the loop of [getBestFromCache] settles on no file and the
    folder holds no readable file named [null], the response is ended
    twice without header and body: by [sendEmpty], and again by
    [loadIcon] failing to read the file it was given. *)
Theorem no_fit_ends_twice (ToNumber : string -> option Z) (foldername : string)
    (size : requested) (cb : list action) (files : list string)
    (readFile : string -> option buffer) (defaultFavicon : option buffer) :
  Listing.no_perfect ToNumber size files ->
  Forall (Fit.at_most ToNumber size (-100000)) files ->
  readFile (foldername ++ "null") = None ->
  Reply.response readFile defaultFavicon
    (getBestFromCache ToNumber foldername size cb (Some files))
  = [Reply.End_ None; Reply.End_ None].
Proof.
  intros Hno Hall Hread. unfold getBestFromCache.
  rewrite (best_unusable ToNumber size files Hno Hall). simpl.
  unfold Reply.loadIcon. rewrite Hread. reflexivity.
Qed.

(** An empty cache directory. *)
Lemma no_fit_ends_twice_witness :
  Reply.response (fun _ => None) None
    (getBestFromCache decimal "favicons/example.com/" (Number 16) [] (Some []))
  = [Reply.End_ None; Reply.End_ None].
Proof.
  apply (no_fit_ends_twice decimal "favicons/example.com/" (Number 16) [] []
           (fun _ => None) None).
  - constructor.
  - constructor.
  - reflexivity.
Defined.

(** ** The scan of the HTML, further *)

Lemma link_icons_plain (ls : list link_match) (root protocol : string) :
  Forall (fun c => bgcolor c = None /\ data c = None) (link_icons ls root protocol)
  /\ List.length (link_icons ls root protocol)
     = List.length
         (filter (fun l => rel_test l && match href_exec l with Some _ => true | None => false end)
            ls).
Proof.
  induction ls as [|l ls [IHall IHlen]]; [split; [constructor | reflexivity]|].
  simpl. destruct (rel_test l), (href_exec l); simpl; split; auto.
Qed.

Lemma tile_icon_plain (tile : option string * option string) (root protocol : string) :
  (List.length (tile_icon tile root protocol) <= 1)%nat
  /\ Forall (fun c => data c = None
                      /\ forall color, bgcolor c = Some color ->
                           color <> "" /\ snd tile = Some color)
       (tile_icon tile root protocol).
Proof.
  destruct tile as [[u|] color]; simpl; [|split; [lia | constructor]].
  destruct u; [split; [simpl; lia | constructor]|].
  destruct color as [[|c color]|]; simpl; (split; [lia|]);
    (apply Forall_cons; [|apply Forall_nil]); (split; [reflexivity|]);
    intros color' Hc; simpl in Hc; try discriminate.
  injection Hc as <-. split; [discriminate | reflexivity].
Qed.

Lemma parseFaviconURL_no_data (html : html_doc) (root protocol : string) :
  Forall (fun c => data c = None) (parseFaviconURL html root protocol).
Proof.
  unfold parseFaviconURL. apply Forall_app. split.
  - destruct (link_icons_plain (links html) root protocol) as [Hall _].
    eapply Forall_impl; [|exact Hall]. intros c [_ Hc]. exact Hc.
  - destruct (tile_icon_plain (tile_scan (metas html) None None) root protocol) as [_ Hall].
    eapply Forall_impl; [|exact Hall]. intros c [Hc _]. exact Hc.
Qed.

Lemma link_icons_hrefs (ls : list link_match) (root protocol : string) :
  link_icons ls root protocol
  = map (fun v => mkFavicon (fixupUrl v root protocol) None None) (Pattern.hrefs ls).
Proof.
  induction ls as [|l ls IH]; [reflexivity|].
  unfold Pattern.hrefs in *. simpl.
  destruct (rel_test l), (href_exec l); simpl; rewrite IH; reflexivity.
Qed.

(** X22.  The candidates that [parseFaviconURL] emits are, in document
    order, one for each link whose [rel] names an icon and which has an
    [href], with the resolved [href] and without background colour, and
    then at most one tile candidate: none when the scan of the [meta]
    elements ended without tile image or with an empty one, else one with
    the resolved tile image and the tile colour the scan ended with,
    unless that is empty.  No candidate has a payload yet, and a
    background colour is never the empty text. *)
Theorem parseFaviconURL_shape (html : html_doc) (root protocol : string) :
  exists tile,
    parseFaviconURL html root protocol
    = (map (fun v => mkFavicon (fixupUrl v root protocol) None None)
         (Pattern.hrefs (links html)) ++ tile)%list
    /\ tile
       = match tile_scan (metas html) None None with
         | (Some (String c u), color) =>
             [mkFavicon (fixupUrl (String c u) root protocol)
                (if truthy color then color else None) None]
         | _ => []
         end
    /\ List.length (Pattern.hrefs (links html))
       = List.length
           (filter (fun l => rel_test l
                             && match href_exec l with Some _ => true | None => false end)
              (links html))
    /\ (List.length tile <= 1)%nat
    /\ Forall (fun c => data c = None) (parseFaviconURL html root protocol)
    /\ Forall (fun c => forall color, bgcolor c = Some color ->
                 color <> "" /\ snd (tile_scan (metas html) None None) = Some color)
         (parseFaviconURL html root protocol).
Proof.
  exists (tile_icon (tile_scan (metas html) None None) root protocol).
  destruct (link_icons_plain (links html) root protocol) as [Hlinked Hlen].
  destruct (tile_icon_plain (tile_scan (metas html) None None) root protocol)
    as [Htile Hcolor].
  split; [unfold parseFaviconURL; now rewrite link_icons_hrefs|].
  split.
  { destruct (tile_scan (metas html) None None) as [[[|c u]|] color]; simpl;
      try reflexivity.
    destruct (truthy color); reflexivity. }
  split; [rewrite <- Hlen, link_icons_hrefs; now rewrite length_map|].
  split; [exact Htile|].
  split; [apply parseFaviconURL_no_data|].
  unfold parseFaviconURL. apply Forall_app. split.
  - eapply Forall_impl; [|exact Hlinked]. intros c [Hc _] color Hcolor'. congruence.
  - eapply Forall_impl; [|exact Hcolor]. intros c [_ Hc]. exact Hc.
Qed.

Lemma tile_scan_app (ms ms' : list meta_match) (tileURL tileColor : option string) :
  tile_scan (ms ++ ms') tileURL tileColor
  = tile_scan ms' (fst (tile_scan ms tileURL tileColor))
      (snd (tile_scan ms tileURL tileColor)).
Proof.
  revert tileURL tileColor. induction ms as [|m ms IH]; intros tileURL tileColor;
    [reflexivity|].
  simpl. destruct (content_exec m), (name_exec m) as [name|]; try apply IH.
  destruct (String.eqb name "TileImage"); [apply IH|].
  destruct (String.eqb name "TileColor"); apply IH.
Qed.

Lemma tile_scan_keeps (ms : list meta_match) (tileURL tileColor : option string) :
  Forall (fun m => name_exec m <> Some "TileImage" \/ content_exec m = None) ms ->
  fst (tile_scan ms tileURL tileColor) = tileURL.
Proof.
  intros Hms. revert tileColor. induction Hms as [|m ms Hm _ IH]; intros tileColor;
    [reflexivity|].
  simpl. destruct (content_exec m) as [content|], (name_exec m) as [name|]; try apply IH.
  destruct (String.eqb_spec name "TileImage") as [->|Hname].
  - destruct Hm as [Hm|Hm]; [now elim Hm | discriminate].
  - destruct (String.eqb name "TileColor"); apply IH.
Qed.

(** X23.  Of several [msapplication-TileImage] elements with a content the
    last one in the document gives the tile URL. *)
Theorem tile_last_wins (before after : list meta_match) (content : string)
    (tileURL tileColor : option string) :
  Forall (fun m => name_exec m <> Some "TileImage" \/ content_exec m = None) after ->
  fst (tile_scan (before ++ mkMeta (Some "TileImage") (Some content) :: after)
         tileURL tileColor)
  = Some content.
Proof.
  intros Hafter. rewrite tile_scan_app. simpl. now apply tile_scan_keeps.
Qed.

(** Two tile images around a tile colour. *)
Lemma tile_last_wins_witness :
  fst (tile_scan
         ([mkMeta (Some "TileImage") (Some "/old.png")]
            ++ mkMeta (Some "TileImage") (Some "/tile.png")
            :: [mkMeta (Some "TileColor") (Some "#da532c")])
         None None)
  = Some "/tile.png".
Proof.
  apply (tile_last_wins [mkMeta (Some "TileImage") (Some "/old.png")]
           [mkMeta (Some "TileColor") (Some "#da532c")] "/tile.png" None None).
  apply Forall_cons; [left; discriminate | apply Forall_nil].
Defined.

(** X24.  The HTML callback issues exactly the fetches of the candidates
    found in the HTML, one for each and in their order, each still
    without payload, raises [expected] by the number of fetches it
    issues, and sets [htmlLoaded]. *)
Theorem html_loaded_dispatches (root protocol : string) (html : option html_doc)
    (s : job) :
  issued (snd (html_loaded root protocol html s))
  = map GetFavicon (html_icons root protocol html)
  /\ expected (fst (html_loaded root protocol html s))
     = expected s + Z.of_nat (List.length (issued (snd (html_loaded root protocol html s))))
  /\ htmlLoaded (fst (html_loaded root protocol html s)) = true
  /\ Forall (fun a => exists c, a = GetFavicon c /\ data c = None)
       (issued (snd (html_loaded root protocol html s))).
Proof.
  assert (Hdone : forall x, x = (let (s', c) := done None (set_htmlLoaded s)
                                 in (s', mkEffects [] c)) ->
             issued (snd x) = [] /\ expected (fst x) = expected s
             /\ htmlLoaded (fst x) = true).
  { intros x ->. unfold done. simpl. destruct (complete _); repeat split. }
  assert (Hnone : forall x, issued (snd x) = [] -> expected (fst x) = expected s ->
             htmlLoaded (fst x) = true ->
             issued (snd x) = map GetFavicon []
             /\ expected (fst x) = expected s + Z.of_nat (List.length (issued (snd x)))
             /\ htmlLoaded (fst x) = true
             /\ Forall (fun a => exists c, a = GetFavicon c /\ data c = None)
                  (issued (snd x))).
  { intros x Hi Hx Hh. rewrite Hi. simpl. repeat split; try assumption; [lia | constructor]. }
  unfold html_loaded, html_icons.
  destruct html as [h|]; [|destruct (Hdone _ eq_refl) as (Hi & Hx & Hh); now apply Hnone].
  destruct (truthy (Some (html_text h)));
    [|destruct (Hdone _ eq_refl) as (Hi & Hx & Hh); now apply Hnone].
  pose proof (parseFaviconURL_no_data h root protocol) as Hdata.
  destruct (parseFaviconURL h root protocol) as [|c cs] eqn:Hparse;
    [destruct (Hdone _ eq_refl) as (Hi & Hx & Hh); now apply Hnone|].
  change (0 <? Z.of_nat (List.length (c :: cs))) with true. cbn iota.
  cbn [fst snd issued]. unfold dispatch. rewrite length_map.
  repeat split.
  apply Forall_map. eapply Forall_impl; [|exact Hdata].
  intros c0 Hc0. exists c0. split; [reflexivity | exact Hc0].
Qed.
